(** * Response executor: dispatch and execution tracking

    A shallow embedding of [response_executor.c] / [response_executor.h].

    - C integers are [Z] values, with the conversions of the source written
      out ([wrap_u32], [wrap_u64], [wrap_s32]).
    - The C enums are [Z] constants: a request can carry any [int] in its
      [type] field, which is what the [default] branch of the dispatcher is for.
    - The process-wide [subsystem_state] is a record passed explicitly.
    - Every call that leaves the translation unit's pure logic (the
      controller functions, [system], [time], [usleep], the pthread calls) is an
      [Op]; executing it appends the operation and the value it returned to the
      [World], the log of effects.  What an operation returns is decided by an
      [oracle] that sees the whole history, so that every combination of step
      outcomes can be produced.  The stub bodies that the source gives to its
      controller functions are the instance [stub_oracle].
    - Console output ([printf]) is not modelled. *)

From Stdlib Require Import ZArith List String Bool Lia.
Import ListNotations.
Local Open Scope string_scope.
Local Open Scope list_scope.
Local Open Scope Z_scope.

(** ** Machine integers *)

Definition wrap_u32 (z : Z) : Z := z mod 2 ^ 32.
Definition wrap_u64 (z : Z) : Z := z mod 2 ^ 64.
Definition wrap_s32 (z : Z) : Z := (z + 2 ^ 31) mod 2 ^ 32 - 2 ^ 31.
Definition wrap_s64 (z : Z) : Z := (z + 2 ^ 63) mod 2 ^ 64 - 2 ^ 63.

(** ** Enumerations of response_executor.h *)

Definition RESPONSE_LOCKDOWN : Z := 1.
Definition RESPONSE_NETWORK_ISOLATE : Z := 2.
Definition RESPONSE_SERVICE_FAILOVER : Z := 3.
Definition RESPONSE_EVACUATION : Z := 4.
Definition RESPONSE_BACKUP_ACTIVATE : Z := 5.
Definition RESPONSE_COMMS_PRIORITY : Z := 6.
Definition RESPONSE_PARTIAL_CONTAIN : Z := 7.
Definition RESPONSE_FULL_RECOVERY : Z := 8.

Definition MODE_NORMAL : Z := 0.

Definition RESPONSE_SUCCESS : Z := 0.
Definition RESPONSE_ERROR_INIT_FAILED : Z := -1.
Definition RESPONSE_ERROR_INVALID_PARAM : Z := -2.
Definition RESPONSE_ERROR_CRITICAL_FAILURE : Z := -99.

Definition AUTH_LEVEL_5 : Z := 5.

(** ** Structures *)

Record integrated_response_t : Type := mk_response {
  type : Z;
  severity : Z;
  target_zones : Z;
  duration : Z;
  auth_level : Z;
  trigger_event : string;
  timestamp : Z;
  retry_count : Z;
  timeout_seconds : Z
}.

Record execution_report_t : Type := mk_report {
  response_id : Z;
  overall_result : Z;
  start_time : Z;
  end_time : Z;
  sub_operations : Z;
  success_count : Z;
  failed_count : Z;
  warning_count : Z;
  system_mode : Z;
  status_summary : string;
  error_details : string
}.

(** The anonymous static struct [subsystem_state].  The mutex is a flag:
    [lock_held] is true while some dispatch owns it. *)
Record subsystem_state_t : Type := mk_state {
  initialized : bool;
  emergency_mode : bool;
  current_level : Z;
  last_report : execution_report_t;
  lock_held : bool
}.

(** [memset (&report, 0, sizeof report)] *)
Definition zero_report : execution_report_t :=
  mk_report 0 0 0 0 0 0 0 0 MODE_NORMAL "" "".

(** [subsystem_state = {0}] *)
Definition initial_state : subsystem_state_t :=
  mk_state false false 0 zero_report false.

Definition set_response_id (v : Z) (p : execution_report_t) : execution_report_t :=
  mk_report v (overall_result p) (start_time p) (end_time p) (sub_operations p)
    (success_count p) (failed_count p) (warning_count p) (system_mode p)
    (status_summary p) (error_details p).

Definition set_overall_result (v : Z) (p : execution_report_t) : execution_report_t :=
  mk_report (response_id p) v (start_time p) (end_time p) (sub_operations p)
    (success_count p) (failed_count p) (warning_count p) (system_mode p)
    (status_summary p) (error_details p).

Definition set_start_time (v : Z) (p : execution_report_t) : execution_report_t :=
  mk_report (response_id p) (overall_result p) v (end_time p) (sub_operations p)
    (success_count p) (failed_count p) (warning_count p) (system_mode p)
    (status_summary p) (error_details p).

Definition set_end_time (v : Z) (p : execution_report_t) : execution_report_t :=
  mk_report (response_id p) (overall_result p) (start_time p) v (sub_operations p)
    (success_count p) (failed_count p) (warning_count p) (system_mode p)
    (status_summary p) (error_details p).

Definition set_sub_operations (v : Z) (p : execution_report_t) : execution_report_t :=
  mk_report (response_id p) (overall_result p) (start_time p) (end_time p) v
    (success_count p) (failed_count p) (warning_count p) (system_mode p)
    (status_summary p) (error_details p).

Definition set_status_summary (v : string) (p : execution_report_t) : execution_report_t :=
  mk_report (response_id p) (overall_result p) (start_time p) (end_time p)
    (sub_operations p) (success_count p) (failed_count p) (warning_count p)
    (system_mode p) v (error_details p).

Definition with_initialized (b : bool) (s : subsystem_state_t) : subsystem_state_t :=
  mk_state b (emergency_mode s) (current_level s) (last_report s) (lock_held s).

Definition with_emergency_mode (b : bool) (s : subsystem_state_t) : subsystem_state_t :=
  mk_state (initialized s) b (current_level s) (last_report s) (lock_held s).

Definition with_current_level (v : Z) (s : subsystem_state_t) : subsystem_state_t :=
  mk_state (initialized s) (emergency_mode s) v (last_report s) (lock_held s).

Definition with_last_report (p : execution_report_t) (s : subsystem_state_t) : subsystem_state_t :=
  mk_state (initialized s) (emergency_mode s) (current_level s) p (lock_held s).

Definition with_lock_held (b : bool) (s : subsystem_state_t) : subsystem_state_t :=
  mk_state (initialized s) (emergency_mode s) (current_level s) (last_report s) b.

(** A write through [subsystem_state.last_report.field]. *)
Definition update_report (f : execution_report_t -> execution_report_t)
    (s : subsystem_state_t) : subsystem_state_t :=
  with_last_report (f (last_report s)) s.

(** ** External operations *)

(** The command lines handed to [system]. *)
Inductive command : Type :=
| CmdFlushChain
| CmdNewChain
| CmdDropZone (i : Z)
| CmdApplyChain
| CmdStopService (name : string)
| CmdStartBackup (name : string).

(** ["%d"] for the loop counter of the zone loop, [0 <= i < 32]. *)
Definition digit (d : Z) : string :=
  String (Ascii.ascii_of_N (Z.to_N (48 + d))) EmptyString.

Definition decimal (i : Z) : string :=
  if i <? 10 then digit i else (digit (i / 10) ++ digit (i mod 10))%string.

Definition render (c : command) : string :=
  match c with
  | CmdFlushChain => "iptables -F CASSIE_EMERGENCY"
  | CmdNewChain => "iptables -N CASSIE_EMERGENCY"
  | CmdDropZone i =>
      ("iptables -A CASSIE_EMERGENCY -s 10.0." ++ decimal i ++ ".0/24 -j DROP")%string
  | CmdApplyChain => "iptables -I FORWARD -j CASSIE_EMERGENCY"
  | CmdStopService name => ("systemctl stop " ++ name)%string
  | CmdStartBackup name => ("systemctl start " ++ name ++ "-backup")%string
  end.

Inductive Op : Type :=
| OpSystem (c : command)
| OpTime
| OpUsleep (usec : Z)
| OpLockdownPhysicalAccess (zones duration : Z)
| OpIsolateNetworkSegments (zones severity : Z)
| OpStopNonCriticalServices (zones : Z)
| OpEnhanceSurveillance (zones : Z)
| OpUnlockEvacuationRoutes (zones : Z)
| OpActivateEvacuationLights (zones : Z)
| OpPowerDownNonEssential (zones : Z)
| OpEnableEmergencyComms
| OpActivateEmergencyBackups (severity : Z)
| OpExecutePartialContainment (response : integrated_response_t)
| OpExecuteRecoverySequence (response : integrated_response_t)
| OpCheckHardwareReadiness
| OpInitNetworkSubsystem
| OpInitAccessControl
| OpRestoreNormalAccess
| OpCleanupNetworkRules
| OpStopEmergencyServices
| OpMutexInit
| OpMutexLock
| OpMutexUnlock
| OpMutexDestroy
| OpThreadCreate (arg : integrated_response_t)
| OpThreadDetach.

(** The C type of what an operation returns. *)
Inductive ctype : Type := CVoid | CInt | CBool | CTimeT.

Definition op_type (op : Op) : ctype :=
  match op with
  | OpTime => CTimeT
  | OpCheckHardwareReadiness => CBool
  | OpActivateEvacuationLights _ | OpPowerDownNonEssential _
  | OpEnableEmergencyComms | OpRestoreNormalAccess | OpCleanupNetworkRules
  | OpStopEmergencyServices => CVoid
  | _ => CInt
  end.

Definition coerce (t : ctype) (z : Z) : Z :=
  match t with
  | CVoid => 0
  | CInt => wrap_s32 z
  | CBool => if z =? 0 then 0 else 1
  | CTimeT => wrap_s64 z
  end.

(** The log of effects: each operation with the value it returned. *)
Definition World : Type := list (Op * Z).

Definition Oracle : Type := World -> Op -> Z.

(** Computations over the world. *)
Definition M (A : Type) : Type := World -> A * World.

Definition ret {A : Type} (a : A) : M A := fun w => (a, w).

Definition bind {A B : Type} (m : M A) (k : A -> M B) : M B :=
  fun w => let (a, w') := m w in k a w'.

Notation "x <- m ;; k" := (bind m (fun x => k))
  (at level 61, m at next level, right associativity).
Notation "m ;;; k" := (bind m (fun _ => k))
  (at level 61, right associativity).

(** The operations of [w], oldest first, without their results. *)
Definition ops_of (w : World) : list Op := map fst w.

Section WithOracle.

Variable oracle : Oracle.

Definition call (op : Op) : M Z :=
  fun w => let rc := coerce (op_type op) (oracle w op) in (rc, w ++ [(op, rc)]).

(** *** Sequence handlers *)

(** The locals of [execute_lockdown_sequence] when it returns:
    [(result, success_ops, total_ops)]. *)
Definition execute_lockdown_sequence_locals (response : integrated_response_t)
    : M (Z * Z * Z) :=
  let result := 0 in
  let success_ops := 0 in
  let total_ops := 0 in
  let total_ops := wrap_u32 (total_ops + 1) in
  rc <- call (OpLockdownPhysicalAccess (target_zones response) (duration response)) ;;
  let '(result, success_ops) :=
    if rc =? 0 then (result, wrap_u32 (success_ops + 1)) else (-1, success_ops) in
  let total_ops := wrap_u32 (total_ops + 1) in
  rc <- call (OpIsolateNetworkSegments (target_zones response) (severity response)) ;;
  let '(result, success_ops) :=
    if rc =? 0 then (result, wrap_u32 (success_ops + 1)) else (-2, success_ops) in
  let total_ops := wrap_u32 (total_ops + 1) in
  rc <- call (OpStopNonCriticalServices (target_zones response)) ;;
  let '(result, success_ops) :=
    if rc =? 0 then (result, wrap_u32 (success_ops + 1)) else (-3, success_ops) in
  let total_ops := wrap_u32 (total_ops + 1) in
  rc <- call (OpEnhanceSurveillance (target_zones response)) ;;
  let success_ops := if rc =? 0 then wrap_u32 (success_ops + 1) else success_ops in
  ret (result, success_ops, total_ops).

(** Only [result] leaves the function; the tallies are printed and dropped. *)
Definition execute_lockdown_sequence (response : integrated_response_t) : M Z :=
  locals <- execute_lockdown_sequence_locals response ;;
  ret (fst (fst locals)).

(** [response->target_zones & (1 << i)].  For [i = 31] the shift leaves the
    range of [int]; the two's complement result converts to the top bit of the
    unsigned mask, which is what [wrap_u32] gives. *)
Definition zone_selected (zones i : Z) : bool :=
  negb (Z.land zones (wrap_u32 (Z.shiftl 1 i)) =? 0).

(** The body of [for (int i = 0; i < 32; i++)], [remaining] iterations from [i]. *)
Fixpoint isolation_loop (remaining : nat) (i : Z) (zones : Z) (result : Z) : M Z :=
  match remaining with
  | O => ret result
  | S n =>
      if zone_selected zones i then
        rc <- call (OpSystem (CmdDropZone i)) ;;
        isolation_loop n (i + 1) zones (if negb (rc =? 0) then -1 else result)
      else isolation_loop n (i + 1) zones result
  end.

Definition execute_network_isolation (response : integrated_response_t) : M Z :=
  let result := 0 in
  call (OpSystem CmdFlushChain) ;;;
  call (OpSystem CmdNewChain) ;;;
  result <- isolation_loop 32 0 (target_zones response) result ;;
  call (OpSystem CmdApplyChain) ;;;
  ret result.

Definition critical_services : list string :=
  ["cassie-core"; "auth-service"; "network-monitor"; "database-service"]%string.

(** The loop over [critical_services], up to the terminating [NULL]. *)
Fixpoint failover_loop (services : list string) (result : Z) : M Z :=
  match services with
  | [] => ret result
  | name :: rest =>
      rc <- call (OpSystem (CmdStopService name)) ;;
      let result := if rc =? 0 then result else -1 in
      rc <- call (OpSystem (CmdStartBackup name)) ;;
      let result := if rc =? 0 then result else -2 in
      call (OpUsleep 500000) ;;;
      failover_loop rest result
  end.

Definition execute_service_failover (response : integrated_response_t) : M Z :=
  let result := 0 in
  failover_loop critical_services result.

Definition execute_evacuation_protocol (response : integrated_response_t) : M Z :=
  let result := 0 in
  rc <- call (OpUnlockEvacuationRoutes (target_zones response)) ;;
  let result := if negb (rc =? 0) then -1 else result in
  call (OpActivateEvacuationLights (target_zones response)) ;;;
  call (OpPowerDownNonEssential (target_zones response)) ;;;
  call OpEnableEmergencyComms ;;;
  ret result.

(** *** Public API *)

(** The [switch (response->type)]: the handler's result and the text copied
    into [status_summary]. *)
Definition dispatch_switch (response : integrated_response_t) : M (Z * string) :=
  let t := type response in
  if t =? RESPONSE_LOCKDOWN then
    result <- execute_lockdown_sequence response ;;
    ret (result, "全面封锁序列执行完成")
  else if t =? RESPONSE_NETWORK_ISOLATE then
    result <- execute_network_isolation response ;;
    ret (result, "网络隔离执行完成")
  else if t =? RESPONSE_SERVICE_FAILOVER then
    result <- execute_service_failover response ;;
    ret (result, "服务切换执行完成")
  else if t =? RESPONSE_EVACUATION then
    result <- execute_evacuation_protocol response ;;
    ret (result, "紧急疏散协议执行完成")
  else if t =? RESPONSE_BACKUP_ACTIVATE then
    result <- call (OpActivateEmergencyBackups (severity response)) ;;
    ret (result, "紧急备份激活完成")
  else if t =? RESPONSE_PARTIAL_CONTAIN then
    result <- call (OpExecutePartialContainment response) ;;
    ret (result, "局部控制措施执行完成")
  else if t =? RESPONSE_FULL_RECOVERY then
    result <- call (OpExecuteRecoverySequence response) ;;
    ret (result, "全面恢复序列执行完成")
  else
    ret (-99, "未知响应类型").

(** [re_execute_integrated] past its guard, statement by statement: the
    returned code and the value of [subsystem_state] after each statement that
    writes it (lock, memset, response_id, start_time, status_summary,
    end_time, overall_result, sub_operations, unlock). *)
Definition re_execute_integrated_steps (response : integrated_response_t)
    (s : subsystem_state_t) : M (Z * list subsystem_state_t) :=
  call OpMutexLock ;;;
  let s1 := with_lock_held true s in
  let s2 := with_last_report zero_report s1 in
  let s3 := update_report (set_response_id (timestamp response)) s2 in
  now <- call OpTime ;;
  let s4 := update_report (set_start_time (wrap_u64 now)) s3 in
  out <- dispatch_switch response ;;
  let result := fst out in
  let s5 := update_report (set_status_summary (snd out)) s4 in
  now <- call OpTime ;;
  let s6 := update_report (set_end_time (wrap_u64 now)) s5 in
  let s7 := update_report (set_overall_result result) s6 in
  let s8 := update_report (set_sub_operations 4) s7 in
  call OpMutexUnlock ;;;
  let s9 := with_lock_held false s8 in
  ret (result, [s1; s2; s3; s4; s5; s6; s7; s8; s9]).

(** [re_execute_integrated].  A null [response] is [None].  The call does not
    return while the mutex is held by someone else: [None]. *)
Definition re_execute_integrated (response : option integrated_response_t)
    (s : subsystem_state_t) (w : World) : option (Z * subsystem_state_t * World) :=
  match response with
  | None => Some (-1, s, w)
  | Some r =>
      if negb (initialized s) then Some (-1, s, w)
      else if lock_held s then None
      else
        let '(result, states, w') := re_execute_integrated_steps r s w in
        Some (result, last states s, w')
  end.

(** The entry point of the detached thread. *)
Definition emergency_thread_wrapper (arg : integrated_response_t)
    (s : subsystem_state_t) (w : World) : option (subsystem_state_t * World) :=
  match re_execute_integrated (Some arg) s w with
  | Some (_, s', w') => Some (s', w')
  | None => None
  end.

Definition re_emergency_sequence (emergency_level : Z) (s : subsystem_state_t)
    : M subsystem_state_t :=
  let s := with_emergency_mode true s in
  let s := with_current_level emergency_level s in
  now <- call OpTime ;;
  let emergency_response :=
    {| type := RESPONSE_LOCKDOWN;
       severity := 10;
       target_zones := 4294967295;
       duration := 3600;
       auth_level := 5;
       trigger_event := "手动紧急触发";
       timestamp := wrap_u64 now;
       retry_count := 0;
       timeout_seconds := 0 |} in
  call (OpThreadCreate emergency_response) ;;;
  call OpThreadDetach ;;;
  ret s.

Definition re_init_integrated (s : subsystem_state_t) : M (Z * subsystem_state_t) :=
  if initialized s then ret (0, s)
  else
    rc <- call OpMutexInit ;;
    if negb (rc =? 0) then ret (-1, s)
    else
      let s := with_lock_held false s in
      ready <- call OpCheckHardwareReadiness ;;
      if ready =? 0 then ret (-2, s)
      else
        rc <- call OpInitNetworkSubsystem ;;
        if negb (rc =? 0) then ret (-3, s)
        else
          rc <- call OpInitAccessControl ;;
          if negb (rc =? 0) then ret (-4, s)
          else
            let s := with_initialized true s in
            let s := with_emergency_mode false s in
            let s := with_current_level 0 s in
            ret (0, s).

(** The caller receives the address of the live report: reading through it
    in state [s] yields [last_report s].  No lock is involved. *)
Definition re_get_last_report (s : subsystem_state_t) : execution_report_t :=
  last_report s.

Definition re_subsystem_ready (s : subsystem_state_t) : M bool :=
  if initialized s && negb (emergency_mode s) then
    ready <- call OpCheckHardwareReadiness ;;
    ret (negb (ready =? 0))
  else ret false.

Definition re_cleanup_resources (s : subsystem_state_t) : M subsystem_state_t :=
  if initialized s then
    call OpRestoreNormalAccess ;;;
    call OpCleanupNetworkRules ;;;
    call OpStopEmergencyServices ;;;
    call OpMutexDestroy ;;;
    ret (with_initialized false s)
  else ret s.

End WithOracle.

(** ** Oracles *)

(** The controller bodies of the source: every [int] controller returns 0,
    [check_hardware_readiness] returns [true].  The libc and pthread calls are
    left to [ext]. *)
Definition stub_oracle (ext : Oracle) : Oracle :=
  fun w op =>
    match op with
    | OpLockdownPhysicalAccess _ _ | OpIsolateNetworkSegments _ _
    | OpStopNonCriticalServices _ | OpEnhanceSurveillance _
    | OpUnlockEvacuationRoutes _ | OpActivateEmergencyBackups _
    | OpExecutePartialContainment _ | OpExecuteRecoverySequence _
    | OpInitNetworkSubsystem | OpInitAccessControl => 0
    | OpCheckHardwareReadiness => 1
    | OpActivateEvacuationLights _ | OpPowerDownNonEssential _
    | OpEnableEmergencyComms | OpRestoreNormalAccess | OpCleanupNetworkRules
    | OpStopEmergencyServices => 0
    | _ => ext w op
    end.

(** Every libc and pthread call returns 0 and the clock reads [now]. *)
Definition calm (now : Z) : Oracle :=
  fun _ op => match op with OpTime => now | _ => 0 end.

(** The k-th operation of the run returns the k-th entry of [outcomes]
    (0 past its end). *)
Definition scripted (outcomes : list Z) : Oracle :=
  fun w _ => nth (List.length w) outcomes 0.

(** Controllers that succeed except for the physical access lock. *)
Definition access_lock_fails (now : Z) : Oracle :=
  fun w op =>
    match op with
    | OpLockdownPhysicalAccess _ _ => 1
    | _ => stub_oracle (calm now) w op
    end.

(** ** Reading the log *)

(** The events a run appended to the world it started from. *)
Definition new_events (w w' : World) : World := skipn (List.length w) w'.

(** The code a handler assigns to [result] when the step fails; [None] for
    a step whose outcome never reaches [result]. *)
Definition failure_code_of (op : Op) : option Z :=
  match op with
  | OpLockdownPhysicalAccess _ _ => Some (-1)
  | OpIsolateNetworkSegments _ _ => Some (-2)
  | OpStopNonCriticalServices _ => Some (-3)
  | OpSystem (CmdDropZone _) => Some (-1)
  | OpSystem (CmdStopService _) => Some (-1)
  | OpSystem (CmdStartBackup _) => Some (-2)
  | OpUnlockEvacuationRoutes _ => Some (-1)
  | _ => None
  end.

(** The words of the specification: the code of the first step that failed,
    0 when none did. *)
Fixpoint first_failure_code (events : World) : Z :=
  match events with
  | [] => 0
  | (op, rc) :: rest =>
      match failure_code_of op with
      | Some code => if rc =? 0 then first_failure_code rest else code
      | None => first_failure_code rest
      end
  end.

(** The code of the last step that failed, 0 when none did. *)
Definition last_failure_code (events : World) : Z :=
  first_failure_code (rev events).

(** What the handlers do: every failing step overwrites [result]. *)
Definition overwrite_result (result : Z) (events : World) : Z :=
  fold_left
    (fun acc (e : Op * Z) =>
       match failure_code_of (fst e) with
       | Some code => if snd e =? 0 then acc else code
       | None => acc
       end)
    events result.

(** [i; i + 1; ...], [n] entries. *)
Fixpoint zrange (i : Z) (n : nat) : list Z :=
  match n with
  | O => []
  | S k => i :: zrange (i + 1) k
  end.

Definition is_zone_call (op : Op) : bool :=
  match op with OpSystem (CmdDropZone _) => true | _ => false end.

Definition is_zone_call_for (i : Z) (op : Op) : bool :=
  match op with OpSystem (CmdDropZone j) => j =? i | _ => false end.

Definition is_activation_call (op : Op) : bool :=
  match op with OpSystem CmdApplyChain => true | _ => false end.

Definition is_lock_call (op : Op) : bool :=
  match op with OpMutexLock => true | _ => false end.

Definition count_calls (p : Op -> bool) (events : World) : nat :=
  List.length (filter p (ops_of events)).

(** The set bits of a 32-bit mask, lowest first. *)
Definition set_zones (zones : Z) : list Z :=
  filter (Z.testbit zones) (zrange 0 32).

(** The requests handed to [pthread_create], oldest first. *)
Fixpoint scheduled_requests (events : World) : list integrated_response_t :=
  match events with
  | [] => []
  | (OpThreadCreate arg, _) :: rest => arg :: scheduled_requests rest
  | _ :: rest => scheduled_requests rest
  end.

(** The operations of one pass over [services]. *)
Definition failover_ops (services : list string) : list Op :=
  flat_map
    (fun name =>
       [OpSystem (CmdStopService name); OpSystem (CmdStartBackup name);
        OpUsleep 500000])
    services.

(** The report a dispatch of [r] leaves behind: clock readings [t0] and
    [t1], handler result [result], summary text [summary]. *)
Definition published_report (r : integrated_response_t) (t0 result : Z)
    (summary : string) (t1 : Z) : execution_report_t :=
  {| response_id := timestamp r;
     overall_result := result;
     start_time := wrap_u64 t0;
     end_time := wrap_u64 t1;
     sub_operations := 4;
     success_count := 0;
     failed_count := 0;
     warning_count := 0;
     system_mode := MODE_NORMAL;
     status_summary := summary;
     error_details := "" |}.

(** The values [subsystem_state] takes during a dispatch of [r] from [s],
    one per writing statement of [re_execute_integrated]. *)
Definition dispatch_states (r : integrated_response_t) (s : subsystem_state_t)
    (t0 result : Z) (summary : string) (t1 : Z) : list subsystem_state_t :=
  let s1 := with_lock_held true s in
  let s2 := with_last_report zero_report s1 in
  let s3 := update_report (set_response_id (timestamp r)) s2 in
  let s4 := update_report (set_start_time (wrap_u64 t0)) s3 in
  let s5 := update_report (set_status_summary summary) s4 in
  let s6 := update_report (set_end_time (wrap_u64 t1)) s5 in
  let s7 := update_report (set_overall_result result) s6 in
  let s8 := update_report (set_sub_operations 4) s7 in
  let s9 := with_lock_held false s8 in
  [s1; s2; s3; s4; s5; s6; s7; s8; s9].

(** The response types the [switch] has a case for. *)
Definition has_handler (t : Z) : bool :=
  existsb (Z.eqb t)
    [RESPONSE_LOCKDOWN; RESPONSE_NETWORK_ISOLATE; RESPONSE_SERVICE_FAILOVER;
     RESPONSE_EVACUATION; RESPONSE_BACKUP_ACTIVATE; RESPONSE_PARTIAL_CONTAIN;
     RESPONSE_FULL_RECOVERY].

Definition with_type (t : Z) (r : integrated_response_t) : integrated_response_t :=
  {| type := t; severity := severity r; target_zones := target_zones r;
     duration := duration r; auth_level := auth_level r;
     trigger_event := trigger_event r; timestamp := timestamp r;
     retry_count := retry_count r; timeout_seconds := timeout_seconds r |}.

(** The calls the dispatcher itself makes around a handler. *)
Definition is_unlock_call (op : Op) : bool :=
  match op with OpMutexUnlock => true | _ => false end.

Definition is_time_call (op : Op) : bool :=
  match op with OpTime => true | _ => false end.

Definition is_dispatcher_op (op : Op) : bool :=
  is_lock_call op || is_unlock_call op || is_time_call op.

(** A logged step that carries a failure code and did not return 0. *)
Definition step_failed (e : Op * Z) : bool :=
  match failure_code_of (fst e) with
  | Some _ => negb (snd e =? 0)
  | None => false
  end.

(** The controller call of the three single-call cases of the [switch]. *)
Definition single_call_op (r : integrated_response_t) : option Op :=
  if type r =? RESPONSE_BACKUP_ACTIVATE then
    Some (OpActivateEmergencyBackups (severity r))
  else if type r =? RESPONSE_PARTIAL_CONTAIN then
    Some (OpExecutePartialContainment r)
  else if type r =? RESPONSE_FULL_RECOVERY then
    Some (OpExecuteRecoverySequence r)
  else None.

(** The response types whose handler only calls controller functions that
    the source defines itself (no [system]). *)
Definition uses_only_controllers (t : Z) : bool :=
  existsb (Z.eqb t)
    [RESPONSE_LOCKDOWN; RESPONSE_EVACUATION; RESPONSE_BACKUP_ACTIVATE;
     RESPONSE_PARTIAL_CONTAIN; RESPONSE_FULL_RECOVERY].

(** The request [re_emergency_sequence] builds when the clock reads [now]. *)
Definition emergency_request (now : Z) : integrated_response_t :=
  {| type := RESPONSE_LOCKDOWN; severity := 10; target_zones := 4294967295;
     duration := 3600; auth_level := 5; trigger_event := "手动紧急触发";
     timestamp := wrap_u64 now; retry_count := 0; timeout_seconds := 0 |}.

(** Requests and states used as concrete inputs. *)
Definition sample_request (t zones : Z) : integrated_response_t :=
  {| type := t; severity := 7; target_zones := zones; duration := 60;
     auth_level := 3; trigger_event := "drill"; timestamp := 1000;
     retry_count := 0; timeout_seconds := 0 |}.

Definition lockdown_all_zones : integrated_response_t :=
  sample_request RESPONSE_LOCKDOWN 4294967295.

Definition ready_state : subsystem_state_t := with_initialized true initial_state.

(** * Properties *)

(** ** Command lines *)

Example render_zone_rule :
  render (CmdDropZone 31) =
  "iptables -A CASSIE_EMERGENCY -s 10.0.31.0/24 -j DROP"%string /\
  render (CmdDropZone 5) =
  "iptables -A CASSIE_EMERGENCY -s 10.0.5.0/24 -j DROP"%string /\
  render (CmdStartBackup "auth-service") =
  "systemctl start auth-service-backup"%string.
Proof. repeat split. Qed.

(** ** The effect monad *)

Lemma call_eq (oracle : Oracle) (op : Op) (w : World) :
  call oracle op w =
  (coerce (op_type op) (oracle w op), w ++ [(op, coerce (op_type op) (oracle w op))]).
Proof. reflexivity. Qed.

Lemma new_events_app (w events : World) : new_events w (w ++ events) = events.
Proof.
  unfold new_events. rewrite skipn_app, skipn_all, Nat.sub_diag. reflexivity.
Qed.

Lemma ops_of_app (u v : World) : ops_of (u ++ v) = ops_of u ++ ops_of v.
Proof. apply map_app. Qed.

(** ** Aggregation of step failures *)

Lemma overwrite_result_snoc (result : Z) (events : World) (op : Op) (rc : Z) :
  overwrite_result result (events ++ [(op, rc)]) =
  match failure_code_of op with
  | Some code => if rc =? 0 then overwrite_result result events else code
  | None => overwrite_result result events
  end.
Proof. unfold overwrite_result. rewrite fold_left_app. reflexivity. Qed.

Lemma overwrite_result_app (result : Z) (u v : World) :
  overwrite_result result (u ++ v) = overwrite_result (overwrite_result result u) v.
Proof. apply fold_left_app. Qed.

Lemma last_failure_code_snoc (events : World) (op : Op) (rc : Z) :
  last_failure_code (events ++ [(op, rc)]) =
  match failure_code_of op with
  | Some code => if rc =? 0 then last_failure_code events else code
  | None => last_failure_code events
  end.
Proof. unfold last_failure_code. rewrite rev_unit. reflexivity. Qed.

(** Overwriting on every failure leaves the code of the last failure. *)
Lemma overwrite_is_last_failure (events : World) :
  overwrite_result 0 events = last_failure_code events.
Proof.
  induction events as [| [op rc] events IH] using rev_ind.
  - reflexivity.
  - rewrite overwrite_result_snoc, last_failure_code_snoc, IH. reflexivity.
Qed.

(** Runs the next [call] of the goal and names its return value. *)
Ltac run_call rc E :=
  rewrite call_eq; cbv beta iota;
  match goal with
  | |- context [coerce (op_type ?op) (?o ?w ?op)] =>
      remember (coerce (op_type op) (o w op)) as rc eqn:E
  end.

Section HandlerResults.

Variable oracle : Oracle.

Lemma lockdown_locals_events (r : integrated_response_t) (w : World) :
  exists rc1 rc2 rc3 rc4,
    let events :=
      [(OpLockdownPhysicalAccess (target_zones r) (duration r), rc1);
       (OpIsolateNetworkSegments (target_zones r) (severity r), rc2);
       (OpStopNonCriticalServices (target_zones r), rc3);
       (OpEnhanceSurveillance (target_zones r), rc4)] in
    execute_lockdown_sequence_locals oracle r w =
      (overwrite_result 0 events,
       Z.of_nat (List.length (filter (fun e => snd e =? 0) events)), 4,
       w ++ events).
Proof.
  unfold execute_lockdown_sequence_locals, bind, ret.
  run_call rc1 E1; destruct (rc1 =? 0) eqn:T1; cbv beta iota;
    (run_call rc2 E2; destruct (rc2 =? 0) eqn:T2; cbv beta iota);
    (run_call rc3 E3; destruct (rc3 =? 0) eqn:T3; cbv beta iota);
    (run_call rc4 E4; destruct (rc4 =? 0) eqn:T4; cbv beta iota);
    exists rc1, rc2, rc3, rc4; cbv zeta;
    rewrite <- !app_assoc; cbn [app];
    unfold overwrite_result; cbn [fold_left filter failure_code_of fst snd];
    rewrite T1, T2, T3, T4; reflexivity.
Qed.

Lemma lockdown_events (r : integrated_response_t) (w : World) :
  exists events,
    execute_lockdown_sequence oracle r w = (overwrite_result 0 events, w ++ events) /\
    ops_of events =
      [OpLockdownPhysicalAccess (target_zones r) (duration r);
       OpIsolateNetworkSegments (target_zones r) (severity r);
       OpStopNonCriticalServices (target_zones r);
       OpEnhanceSurveillance (target_zones r)].
Proof.
  destruct (lockdown_locals_events r w) as (rc1 & rc2 & rc3 & rc4 & H).
  cbv zeta in H.
  eexists. split.
  - unfold execute_lockdown_sequence, bind, ret. rewrite H. reflexivity.
  - reflexivity.
Qed.

Lemma failover_loop_events (services : list string) :
  forall (result : Z) (w : World),
  exists events,
    failover_loop oracle services result w =
      (overwrite_result result events, w ++ events) /\
    ops_of events = failover_ops services.
Proof.
  induction services as [| name rest IH]; intros result w.
  - exists []. rewrite app_nil_r. split; reflexivity.
  - cbn [failover_loop]. unfold bind.
    run_call rc1 E1. run_call rc2 E2. run_call rc3 E3.
    set (w3 := ((w ++ _) ++ _) ++ _).
    destruct (IH (if rc2 =? 0 then (if rc1 =? 0 then result else -1) else -2) w3)
      as (events & Hrun & Hops).
    exists ((OpSystem (CmdStopService name), rc1)
            :: (OpSystem (CmdStartBackup name), rc2)
            :: (OpUsleep 500000, rc3) :: events).
    split.
    + rewrite Hrun. subst w3. rewrite <- !app_assoc. reflexivity.
    + unfold failover_ops in Hops |- *. cbn. rewrite <- Hops. reflexivity.
Qed.

Lemma failover_events (r : integrated_response_t) (w : World) :
  exists events,
    execute_service_failover oracle r w = (overwrite_result 0 events, w ++ events) /\
    ops_of events = failover_ops critical_services.
Proof. apply failover_loop_events. Qed.

End HandlerResults.

(** ** The zone mask *)

Lemma land_pow2 (a i : Z) :
  0 <= i -> Z.land a (2 ^ i) = if Z.testbit a i then 2 ^ i else 0.
Proof.
  intros Hi. apply Z.bits_inj'. intros n Hn.
  rewrite Z.land_spec, Z.pow2_bits_eqb by assumption.
  destruct (Z.eqb_spec i n) as [-> | Hne].
  - destruct (Z.testbit a n) eqn:Hbit.
    + rewrite Z.pow2_bits_eqb, Z.eqb_refl by assumption. reflexivity.
    + rewrite Z.bits_0. reflexivity.
  - rewrite andb_false_r.
    destruct (Z.testbit a i).
    + rewrite Z.pow2_bits_eqb by assumption.
      symmetry. apply Z.eqb_neq. assumption.
    + rewrite Z.bits_0. reflexivity.
Qed.

Lemma zone_selected_testbit (zones i : Z) :
  0 <= i < 32 -> zone_selected zones i = Z.testbit zones i.
Proof.
  intros Hi. unfold zone_selected, wrap_u32.
  rewrite Z.shiftl_1_l.
  rewrite Z.mod_small
    by (split; [apply Z.pow_nonneg; lia | apply Z.pow_lt_mono_r; lia]).
  rewrite land_pow2 by lia.
  destruct (Z.testbit zones i); [| reflexivity].
  assert (0 < 2 ^ i) by (apply Z.pow_pos_nonneg; lia).
  destruct (Z.eqb_spec (2 ^ i) 0); [lia | reflexivity].
Qed.

Lemma in_zrange (j : Z) (n : nat) :
  forall i, In j (zrange i n) <-> i <= j < i + Z.of_nat n.
Proof.
  induction n as [| n IH]; intros i; cbn [zrange In].
  - lia.
  - rewrite IH. lia.
Qed.

Lemma selected_zones_are_set_bits (zones : Z) :
  filter (zone_selected zones) (zrange 0 32) = set_zones zones.
Proof.
  unfold set_zones. apply filter_ext_in. intros j Hj.
  apply zone_selected_testbit. apply in_zrange in Hj. lia.
Qed.

(** An index occurs at most once among the selected entries of a range. *)
Lemma occurrences_in_filtered_zrange (P : Z -> bool) (j : Z) (n : nat) :
  forall i,
    List.length (filter (fun k => k =? j) (filter P (zrange i n))) =
    if (i <=? j) && (j <? i + Z.of_nat n) && P j then 1%nat else 0%nat.
Proof.
  induction n as [| n IH]; intros i.
  - cbn [zrange filter List.length].
    destruct (i <=? j) eqn:A, (j <? i + Z.of_nat 0) eqn:B; try reflexivity.
    apply Z.leb_le in A. apply Z.ltb_lt in B. lia.
  - cbn [zrange filter].
    destruct (Z.eqb_spec i j) as [-> | Hne].
    + destruct (P j) eqn:HP.
      * cbn [filter]. rewrite Z.eqb_refl. cbn [List.length]. rewrite IH.
        replace (j + 1 <=? j) with false by (symmetry; apply Z.leb_gt; lia).
        replace (j <=? j) with true by (symmetry; apply Z.leb_le; lia).
        replace (j <? j + Z.of_nat (S n)) with true
          by (symmetry; apply Z.ltb_lt; lia).
        reflexivity.
      * rewrite IH.
        replace (j + 1 <=? j) with false by (symmetry; apply Z.leb_gt; lia).
        rewrite !andb_false_r. reflexivity.
    + assert (Hstep :
        List.length (filter (fun k => k =? j)
          (if P i then i :: filter P (zrange (i + 1) n)
           else filter P (zrange (i + 1) n))) =
        List.length (filter (fun k => k =? j) (filter P (zrange (i + 1) n)))).
      { destruct (P i); [| reflexivity].
        cbn [filter]. destruct (Z.eqb_spec i j); [contradiction | reflexivity]. }
      rewrite Hstep, IH.
      replace ((i + 1 <=? j) && (j <? i + 1 + Z.of_nat n))
        with ((i <=? j) && (j <? i + Z.of_nat (S n))); [reflexivity |].
      destruct (Z.leb_spec i j), (Z.ltb_spec j (i + Z.of_nat (S n))),
        (Z.leb_spec (i + 1) j), (Z.ltb_spec j (i + 1 + Z.of_nat n));
        cbn; try reflexivity; lia.
Qed.

Section ZoneFanOut.

Variable oracle : Oracle.

Lemma isolation_loop_events (zones : Z) (n : nat) :
  forall (i result : Z) (w : World),
  exists events,
    isolation_loop oracle n i zones result w =
      (overwrite_result result events, w ++ events) /\
    ops_of events =
      map (fun j => OpSystem (CmdDropZone j))
        (filter (zone_selected zones) (zrange i n)).
Proof.
  induction n as [| n IH]; intros i result w.
  - exists []. rewrite app_nil_r. split; reflexivity.
  - cbn [isolation_loop zrange filter].
    destruct (zone_selected zones i).
    + unfold bind. run_call rc E.
      set (w1 := w ++ _).
      destruct (IH (i + 1) (if negb (rc =? 0) then -1 else result) w1)
        as (events & Hrun & Hops).
      exists ((OpSystem (CmdDropZone i), rc) :: events). split.
      * rewrite Hrun. subst w1. rewrite <- app_assoc.
        unfold overwrite_result. cbn [fold_left failure_code_of fst snd app].
        destruct (rc =? 0); reflexivity.
      * cbn [ops_of map fst]. f_equal. exact Hops.
    + apply IH.
Qed.

Lemma network_isolation_events (r : integrated_response_t) (w : World) :
  exists events,
    execute_network_isolation oracle r w = (overwrite_result 0 events, w ++ events) /\
    ops_of events =
      [OpSystem CmdFlushChain; OpSystem CmdNewChain]
      ++ map (fun j => OpSystem (CmdDropZone j)) (set_zones (target_zones r))
      ++ [OpSystem CmdApplyChain].
Proof.
  unfold execute_network_isolation, bind, ret.
  run_call rc1 E1. run_call rc2 E2.
  set (w2 := (w ++ _) ++ _).
  destruct (isolation_loop_events (target_zones r) 32 0 0 w2)
    as (events & Hrun & Hops).
  rewrite Hrun. run_call rc3 E3.
  exists ((OpSystem CmdFlushChain, rc1) :: (OpSystem CmdNewChain, rc2)
          :: events ++ [(OpSystem CmdApplyChain, rc3)]).
  split.
  - subst w2. rewrite <- !app_assoc. cbn [app]. f_equal.
    change ((OpSystem CmdFlushChain, rc1) :: (OpSystem CmdNewChain, rc2)
            :: events ++ [(OpSystem CmdApplyChain, rc3)])
      with ([(OpSystem CmdFlushChain, rc1); (OpSystem CmdNewChain, rc2)]
            ++ events ++ [(OpSystem CmdApplyChain, rc3)]).
    rewrite !overwrite_result_app. reflexivity.
  - cbn [ops_of map fst app]. do 2 f_equal.
    change (map fst (events ++ [(OpSystem CmdApplyChain, rc3)]))
      with (ops_of (events ++ [(OpSystem CmdApplyChain, rc3)])).
    rewrite ops_of_app, Hops, selected_zones_are_set_bits. reflexivity.
Qed.

Lemma evacuation_events (r : integrated_response_t) (w : World) :
  exists rc,
    execute_evacuation_protocol oracle r w =
      (if rc =? 0 then 0 else -1,
       w ++ [(OpUnlockEvacuationRoutes (target_zones r), rc);
             (OpActivateEvacuationLights (target_zones r), 0);
             (OpPowerDownNonEssential (target_zones r), 0);
             (OpEnableEmergencyComms, 0)]).
Proof.
  unfold execute_evacuation_protocol, bind, ret.
  run_call rc E. exists rc.
  rewrite !call_eq. cbv beta iota.
  rewrite <- !app_assoc. cbn [app op_type coerce].
  destruct (rc =? 0); reflexivity.
Qed.

End ZoneFanOut.

(** ** Counting the calls of a run *)

Lemma count_calls_ops (p : Op -> bool) (events : World) (ops : list Op) :
  ops_of events = ops -> count_calls p events = List.length (filter p ops).
Proof. intros <-. reflexivity. Qed.

Lemma filter_zone_calls (l : list Z) :
  filter is_zone_call (map (fun j => OpSystem (CmdDropZone j)) l) =
  map (fun j => OpSystem (CmdDropZone j)) l.
Proof.
  induction l as [| j l IH]; cbn [map filter is_zone_call];
    [reflexivity | f_equal; exact IH].
Qed.

Lemma filter_zone_calls_for (i : Z) (l : list Z) :
  filter (is_zone_call_for i) (map (fun j => OpSystem (CmdDropZone j)) l) =
  map (fun j => OpSystem (CmdDropZone j)) (filter (fun k => k =? i) l).
Proof.
  induction l as [| j l IH]; cbn [map filter is_zone_call_for].
  - reflexivity.
  - destruct (j =? i); cbn [map]; rewrite IH; reflexivity.
Qed.

Lemma filter_activation_calls (l : list Z) :
  filter is_activation_call (map (fun j => OpSystem (CmdDropZone j)) l) = [].
Proof.
  induction l as [| j l IH]; cbn [map filter is_activation_call];
    [reflexivity | exact IH].
Qed.

(** The calls of a network isolation over the zones [l]. *)
Lemma isolation_ops_zone_calls (l : list Z) :
  List.length
    (filter is_zone_call
       ([OpSystem CmdFlushChain; OpSystem CmdNewChain]
        ++ map (fun j => OpSystem (CmdDropZone j)) l ++ [OpSystem CmdApplyChain])) =
  List.length l.
Proof.
  cbn [app filter is_zone_call].
  rewrite filter_app, filter_zone_calls, length_app, length_map.
  cbn [filter is_zone_call List.length]. apply Nat.add_0_r.
Qed.

Lemma isolation_ops_zone_calls_for (i : Z) (l : list Z) :
  List.length
    (filter (is_zone_call_for i)
       ([OpSystem CmdFlushChain; OpSystem CmdNewChain]
        ++ map (fun j => OpSystem (CmdDropZone j)) l ++ [OpSystem CmdApplyChain])) =
  List.length (filter (fun k => k =? i) l).
Proof.
  cbn [app filter is_zone_call_for].
  rewrite filter_app, filter_zone_calls_for, length_app, length_map.
  cbn [filter is_zone_call_for List.length]. apply Nat.add_0_r.
Qed.

Lemma isolation_ops_activation_calls (l : list Z) :
  List.length
    (filter is_activation_call
       ([OpSystem CmdFlushChain; OpSystem CmdNewChain]
        ++ map (fun j => OpSystem (CmdDropZone j)) l ++ [OpSystem CmdApplyChain])) =
  1%nat.
Proof.
  cbn [app filter is_activation_call].
  rewrite filter_app, filter_activation_calls. reflexivity.
Qed.

(** ** Sequence handlers *)

(** C1 (as amended): each sequence handler attempts all its steps and returns
    the code of the LAST step that failed among the steps that carry a failure
    code (every failing step overwrites the result); 0 when none of them
    failed.  Lockdown: access -1, network -2, service stop -3, surveillance
    without a code.  Service failover: a primary that does not stop -1, a
    backup that does not start -2.  Network isolation: any zone rule -1.
    Evacuation: the unlock step -1. *)
Theorem handlers_return_last_failure_code
    (oracle : Oracle) (r : integrated_response_t) (w : World) :
  (exists events,
     execute_lockdown_sequence oracle r w = (last_failure_code events, w ++ events) /\
     ops_of events =
       [OpLockdownPhysicalAccess (target_zones r) (duration r);
        OpIsolateNetworkSegments (target_zones r) (severity r);
        OpStopNonCriticalServices (target_zones r);
        OpEnhanceSurveillance (target_zones r)]) /\
  (exists events,
     execute_service_failover oracle r w = (last_failure_code events, w ++ events) /\
     ops_of events = failover_ops critical_services) /\
  (exists events,
     execute_network_isolation oracle r w = (last_failure_code events, w ++ events) /\
     ops_of events =
       [OpSystem CmdFlushChain; OpSystem CmdNewChain]
       ++ map (fun j => OpSystem (CmdDropZone j)) (set_zones (target_zones r))
       ++ [OpSystem CmdApplyChain]) /\
  (exists events,
     execute_evacuation_protocol oracle r w = (last_failure_code events, w ++ events) /\
     ops_of events =
       [OpUnlockEvacuationRoutes (target_zones r);
        OpActivateEvacuationLights (target_zones r);
        OpPowerDownNonEssential (target_zones r);
        OpEnableEmergencyComms]).
Proof.
  repeat split.
  - destruct (lockdown_events oracle r w) as (events & Hrun & Hops).
    exists events. rewrite <- overwrite_is_last_failure. auto.
  - destruct (failover_events oracle r w) as (events & Hrun & Hops).
    exists events. rewrite <- overwrite_is_last_failure. auto.
  - destruct (network_isolation_events oracle r w) as (events & Hrun & Hops).
    exists events. rewrite <- overwrite_is_last_failure. auto.
  - destruct (evacuation_events oracle r w) as (rc & Hrun).
    exists [(OpUnlockEvacuationRoutes (target_zones r), rc);
            (OpActivateEvacuationLights (target_zones r), 0);
            (OpPowerDownNonEssential (target_zones r), 0);
            (OpEnableEmergencyComms, 0)].
    split; [| reflexivity].
    rewrite Hrun. f_equal.
Qed.

(** Every combination of outcomes of the four lockdown steps occurs: a
    scripted world produces it. *)
Lemma lockdown_outcomes_unconstrained (a b c d : Z) (r : integrated_response_t) :
  snd (execute_lockdown_sequence (scripted [a; b; c; d]) r []) =
    [(OpLockdownPhysicalAccess (target_zones r) (duration r), wrap_s32 a);
     (OpIsolateNetworkSegments (target_zones r) (severity r), wrap_s32 b);
     (OpStopNonCriticalServices (target_zones r), wrap_s32 c);
     (OpEnhanceSurveillance (target_zones r), wrap_s32 d)].
Proof.
  unfold execute_lockdown_sequence, execute_lockdown_sequence_locals, bind, ret.
  rewrite call_eq; cbv beta iota.
  cbn [scripted List.length nth op_type coerce app].
  destruct (wrap_s32 a =? 0); cbv beta iota;
    (rewrite call_eq; cbv beta iota;
     cbn [scripted List.length nth op_type coerce app];
     destruct (wrap_s32 b =? 0); cbv beta iota);
    (rewrite call_eq; cbv beta iota;
     cbn [scripted List.length nth op_type coerce app];
     destruct (wrap_s32 c =? 0); cbv beta iota);
    rewrite call_eq; reflexivity.
Qed.

(** C1 (as stated) fails: with the access lock and the network isolation both
    failing, Lockdown returns the network code -2, not the access code -1 of
    the first failure; with the first primary not stopping and its backup not
    starting, ServiceFailover returns -2, not the -1 of the first failure. *)
Lemma first_failure_does_not_win :
  (let run := execute_lockdown_sequence (scripted [1; 1; 0; 0]) lockdown_all_zones [] in
   fst run = -2 /\ first_failure_code (snd run) = -1) /\
  (let run :=
     execute_service_failover (scripted [1; 1])
       (sample_request RESPONSE_SERVICE_FAILOVER 0) [] in
   fst run = -2 /\ first_failure_code (snd run) = -1).
Proof. vm_compute. repeat split. Qed.

(** C7: Evacuation first calls the unlock of the evacuation routes, then,
    whatever the unlock returned, activates the lighting, powers down the
    non-essential loads and enables the emergency communications, in this
    order; it returns 0 exactly when the unlock succeeded, and -1 otherwise. *)
Theorem evacuation_unlock_then_best_effort
    (oracle : Oracle) (r : integrated_response_t) (w : World) :
  exists rc result,
    execute_evacuation_protocol oracle r w =
      (result,
       w ++ [(OpUnlockEvacuationRoutes (target_zones r), rc);
             (OpActivateEvacuationLights (target_zones r), 0);
             (OpPowerDownNonEssential (target_zones r), 0);
             (OpEnableEmergencyComms, 0)]) /\
    (result = 0 <-> rc = 0) /\
    (rc <> 0 -> result = -1).
Proof.
  destruct (evacuation_events oracle r w) as (rc & Hrun).
  exists rc, (if rc =? 0 then 0 else -1). split; [exact Hrun |].
  destruct (Z.eqb_spec rc 0); split; try split; intros; try lia; contradiction.
Qed.

(** C5: NetworkIsolate issues, after the two calls that prepare the rule
    chain, exactly one per-zone isolation call for each set bit of the mask,
    lowest zone first, and then exactly one activation call, whatever any of
    the calls returned. *)
Theorem network_isolation_one_call_per_zone
    (oracle : Oracle) (r : integrated_response_t) (w : World) :
  exists result events,
    execute_network_isolation oracle r w = (result, w ++ events) /\
    ops_of events =
      [OpSystem CmdFlushChain; OpSystem CmdNewChain]
      ++ map (fun j => OpSystem (CmdDropZone j)) (set_zones (target_zones r))
      ++ [OpSystem CmdApplyChain] /\
    count_calls is_zone_call events = List.length (set_zones (target_zones r)) /\
    (forall i,
       count_calls (is_zone_call_for i) events =
       if (0 <=? i) && (i <? 32) && Z.testbit (target_zones r) i
       then 1%nat else 0%nat) /\
    count_calls is_activation_call events = 1%nat.
Proof.
  destruct (network_isolation_events oracle r w) as (events & Hrun & Hops).
  exists (overwrite_result 0 events), events.
  split; [exact Hrun |]. split; [exact Hops |].
  split; [| split].
  - rewrite (count_calls_ops _ _ _ Hops). apply isolation_ops_zone_calls.
  - intros i. rewrite (count_calls_ops _ _ _ Hops).
    rewrite isolation_ops_zone_calls_for. unfold set_zones.
    apply (occurrences_in_filtered_zrange (Z.testbit (target_zones r)) i 32 0).
  - rewrite (count_calls_ops _ _ _ Hops). apply isolation_ops_activation_calls.
Qed.

(** The mask with exactly the bits 0, 5 and 9: three per-zone calls and one
    activation call, also when every call fails. *)
Example isolate_zones_0_5_9 :
  set_zones 545 = [0; 5; 9] /\
  (let run :=
     execute_network_isolation (scripted [1; 1; 1; 1; 1; 1])
       (sample_request RESPONSE_NETWORK_ISOLATE 545) [] in
   count_calls is_zone_call (snd run) = 3%nat /\
   count_calls is_activation_call (snd run) = 1%nat /\
   fst run = -1).
Proof. vm_compute. repeat split. Qed.

(** ** The dispatcher *)

Section Dispatcher.

Variable oracle : Oracle.

(** The run of the dispatcher past its guard: the calls around the handler
    and the successive values of the state. *)
Lemma re_execute_integrated_steps_eq
    (r : integrated_response_t) (s : subsystem_state_t) (w : World) :
  exists lk t0 out w2 t1 ul,
    dispatch_switch oracle r (w ++ [(OpMutexLock, lk); (OpTime, t0)]) = (out, w2) /\
    re_execute_integrated_steps oracle r s w =
      (fst out, dispatch_states r s t0 (fst out) (snd out) t1,
       w2 ++ [(OpTime, t1); (OpMutexUnlock, ul)]).
Proof.
  unfold re_execute_integrated_steps, bind, ret.
  run_call lk E1. run_call t0 E2.
  rewrite <- app_assoc. cbn [app].
  destruct (dispatch_switch oracle r (w ++ [(OpMutexLock, lk); (OpTime, t0)]))
    as [out w2] eqn:Hswitch.
  run_call t1 E3. run_call ul E4.
  exists lk, t0, out, w2, t1, ul. split; [exact Hswitch |].
  rewrite <- app_assoc. reflexivity.
Qed.

Lemma last_dispatch_state
    (r : integrated_response_t) (s : subsystem_state_t)
    (t0 result : Z) (summary : string) (t1 : Z) :
  last (dispatch_states r s t0 result summary t1) s =
  mk_state (initialized s) (emergency_mode s) (current_level s)
    (published_report r t0 result summary t1) false.
Proof. reflexivity. Qed.

(** A dispatch on an initialized system whose lock is free returns, and
    publishes the report below. *)
Lemma re_execute_integrated_returns
    (r : integrated_response_t) (s : subsystem_state_t) (w : World) :
  initialized s = true -> lock_held s = false ->
  exists lk t0 out w2 t1 ul,
    dispatch_switch oracle r (w ++ [(OpMutexLock, lk); (OpTime, t0)]) = (out, w2) /\
    re_execute_integrated oracle (Some r) s w =
      Some (fst out,
            mk_state true (emergency_mode s) (current_level s)
              (published_report r t0 (fst out) (snd out) t1) false,
            w2 ++ [(OpTime, t1); (OpMutexUnlock, ul)]).
Proof.
  intros Hinit Hlock.
  destruct (re_execute_integrated_steps_eq r s w)
    as (lk & t0 & out & w2 & t1 & ul & Hswitch & Hsteps).
  exists lk, t0, out, w2, t1, ul. split; [exact Hswitch |].
  unfold re_execute_integrated. rewrite Hinit, Hlock. cbn [negb].
  rewrite Hsteps, last_dispatch_state, Hinit. reflexivity.
Qed.

End Dispatcher.

(** C10: every dispatch that passes the guard publishes a report with
    [sub_operations = 4] and [success_count = failed_count = warning_count = 0],
    whatever the type of the request and whatever the steps returned: the
    report is zeroed, and of the four counters only [sub_operations] is
    written afterwards, with the constant 4. *)
Theorem report_counters_are_constant
    (oracle : Oracle) (r : integrated_response_t)
    (s : subsystem_state_t) (w : World) :
  initialized s = true -> lock_held s = false ->
  exists result s' w',
    re_execute_integrated oracle (Some r) s w = Some (result, s', w') /\
    sub_operations (re_get_last_report s') = 4 /\
    success_count (re_get_last_report s') = 0 /\
    failed_count (re_get_last_report s') = 0 /\
    warning_count (re_get_last_report s') = 0.
Proof.
  intros Hinit Hlock.
  destruct (re_execute_integrated_returns oracle r s w Hinit Hlock)
    as (lk & t0 & out & w2 & t1 & ul & _ & Hrun).
  do 3 eexists. split; [exact Hrun |].
  repeat split.
Qed.

Lemma report_counters_are_constant_witness :
  initialized ready_state = true /\ lock_held ready_state = false /\
  exists result s' w',
    re_execute_integrated (access_lock_fails 1700000000)
      (Some lockdown_all_zones) ready_state [] = Some (result, s', w') /\
    sub_operations (re_get_last_report s') = 4 /\
    success_count (re_get_last_report s') = 0 /\
    failed_count (re_get_last_report s') = 0 /\
    warning_count (re_get_last_report s') = 0.
Proof.
  split; [reflexivity |]. split; [reflexivity |].
  apply (report_counters_are_constant (access_lock_fails 1700000000)
           lockdown_all_zones ready_state []); reflexivity.
Defined.

(** C2, the code at the inputs of the claim: a Lockdown of all zones on an
    initialized system.  With the controllers of the source (all succeed) the
    handler counts 4 successes of 4 and the report has [overall_result = 0],
    but [success_count = 0]; with only the access lock failing the handler
    counts 3 of 4 and the report has [overall_result = -1], the code of the
    access step, but again [success_count = 0]. *)
Lemma lockdown_report_drops_success_tally :
  (fst (execute_lockdown_sequence_locals (stub_oracle (calm 1700000000))
          lockdown_all_zones []) = (0, 4, 4) /\
   exists s' w',
     re_execute_integrated (stub_oracle (calm 1700000000))
       (Some lockdown_all_zones) ready_state [] = Some (0, s', w') /\
     overall_result (re_get_last_report s') = 0 /\
     success_count (re_get_last_report s') = 0) /\
  (fst (execute_lockdown_sequence_locals (access_lock_fails 1700000000)
          lockdown_all_zones []) = (-1, 3, 4) /\
   exists s' w',
     re_execute_integrated (access_lock_fails 1700000000)
       (Some lockdown_all_zones) ready_state [] = Some (-1, s', w') /\
     overall_result (re_get_last_report s') = -1 /\
     success_count (re_get_last_report s') = 0).
Proof.
  split; (split; [reflexivity |]); do 2 eexists;
    (split; [reflexivity |]); split; reflexivity.
Qed.

(** C4: a dispatch with an absent request or on an uninitialized system
    returns -1 at once: the state, with its report and its lock, and the world
    are as before, so no lock call and no other call was made. *)
Theorem dispatch_guard_rejects_untouched
    (oracle : Oracle) (response : option integrated_response_t)
    (s : subsystem_state_t) (w : World) :
  response = None \/ initialized s = false ->
  exists s' w',
    re_execute_integrated oracle response s w = Some (-1, s', w') /\
    s' = s /\ w' = w /\
    re_get_last_report s' = re_get_last_report s /\
    lock_held s' = lock_held s /\
    count_calls is_lock_call (new_events w w') = 0%nat.
Proof.
  intros Hguard. exists s, w.
  assert (Hrun : re_execute_integrated oracle response s w = Some (-1, s, w)).
  { unfold re_execute_integrated.
    destruct response as [r |]; [| reflexivity].
    destruct Hguard as [Hnone | Huninit]; [discriminate Hnone |].
    rewrite Huninit. reflexivity. }
  repeat split; try assumption.
  rewrite <- (app_nil_r w) at 2. rewrite new_events_app. reflexivity.
Qed.

Lemma dispatch_guard_rejects_untouched_witness :
  (Some lockdown_all_zones = None \/ initialized initial_state = false) /\
  exists s' w',
    re_execute_integrated (stub_oracle (calm 1700000000))
      (Some lockdown_all_zones) initial_state [] = Some (-1, s', w') /\
    s' = initial_state /\ w' = [] /\
    re_get_last_report s' = re_get_last_report initial_state /\
    lock_held s' = lock_held initial_state /\
    count_calls is_lock_call (new_events [] w') = 0%nat.
Proof.
  split; [right; reflexivity |].
  apply (dispatch_guard_rejects_untouched (stub_oracle (calm 1700000000))
           (Some lockdown_all_zones) initial_state []).
  right; reflexivity.
Defined.

(** The guard also rejects an absent request on an initialized system. *)
Example null_request_rejected :
  re_execute_integrated (stub_oracle (calm 1700000000)) None ready_state [] =
  Some (-1, ready_state, []).
Proof. reflexivity. Qed.

(** A type without a case falls to the [default] branch. *)
Lemma dispatch_switch_default
    (oracle : Oracle) (r : integrated_response_t) (w : World) :
  has_handler (type r) = false ->
  dispatch_switch oracle r w = ((-99, "未知响应类型"%string), w).
Proof.
  intros H. unfold has_handler in H. cbn [existsb] in H.
  rewrite !orb_false_iff in H.
  destruct H as (H1 & H2 & H3 & H4 & H5 & H7 & H8 & _).
  unfold dispatch_switch. rewrite H1, H2, H3, H4, H5, H7, H8. reflexivity.
Qed.

Lemma dispatch_without_handler
    (oracle : Oracle) (r : integrated_response_t)
    (s : subsystem_state_t) (w : World) :
  has_handler (type r) = false ->
  initialized s = true -> lock_held s = false ->
  re_execute_integrated oracle (Some r) s w =
    let lk := coerce CInt (oracle w OpMutexLock) in
    let w1 := w ++ [(OpMutexLock, lk)] in
    let t0 := coerce CTimeT (oracle w1 OpTime) in
    let w2 := w1 ++ [(OpTime, t0)] in
    let t1 := coerce CTimeT (oracle w2 OpTime) in
    let w3 := w2 ++ [(OpTime, t1)] in
    let ul := coerce CInt (oracle w3 OpMutexUnlock) in
    Some (-99,
          mk_state true (emergency_mode s) (current_level s)
            (published_report r t0 (-99) "未知响应类型" t1) false,
          w3 ++ [(OpMutexUnlock, ul)]).
Proof.
  intros Htype Hinit Hlock.
  unfold re_execute_integrated. rewrite Hinit, Hlock. cbn [negb].
  unfold re_execute_integrated_steps, bind, ret.
  rewrite !call_eq. cbv beta iota.
  rewrite (dispatch_switch_default _ _ _ Htype).
  rewrite !call_eq. cbv beta iota zeta.
  cbn [last fst snd op_type].
  unfold update_report, with_last_report, with_lock_held, published_report.
  cbn. rewrite Hinit. reflexivity.
Qed.

(** C9: on an initialized system a request of type RESPONSE_COMMS_PRIORITY
    runs no handler: the dispatch makes no call between the two clock
    readings, returns -99 and publishes the summary of an unknown response
    type, and it is the same run as for any type value without a case in the
    switch. *)
Theorem comms_priority_is_unknown_type
    (oracle : Oracle) (r : integrated_response_t)
    (s : subsystem_state_t) (w : World) :
  type r = RESPONSE_COMMS_PRIORITY ->
  initialized s = true -> lock_held s = false ->
  exists s' w',
    re_execute_integrated oracle (Some r) s w =
      Some (RESPONSE_ERROR_CRITICAL_FAILURE, s', w') /\
    overall_result (re_get_last_report s') = -99 /\
    status_summary (re_get_last_report s') = "未知响应类型"%string /\
    ops_of (new_events w w') = [OpMutexLock; OpTime; OpTime; OpMutexUnlock] /\
    (forall t,
       has_handler t = false ->
       re_execute_integrated oracle (Some (with_type t r)) s w =
       Some (RESPONSE_ERROR_CRITICAL_FAILURE, s', w')).
Proof.
  intros Htype Hinit Hlock.
  assert (Hr : has_handler (type r) = false) by (rewrite Htype; reflexivity).
  pose proof (dispatch_without_handler oracle r s w Hr Hinit Hlock) as Hrun.
  cbv zeta in Hrun.
  do 2 eexists. split; [exact Hrun |].
  split; [reflexivity |]. split; [reflexivity |]. split.
  - rewrite <- !app_assoc, new_events_app. reflexivity.
  - intros t Ht.
    rewrite (dispatch_without_handler oracle (with_type t r) s w Ht Hinit Hlock).
    reflexivity.
Qed.

Lemma comms_priority_is_unknown_type_witness :
  type (sample_request RESPONSE_COMMS_PRIORITY 7) = RESPONSE_COMMS_PRIORITY /\
  initialized ready_state = true /\ lock_held ready_state = false /\
  exists s' w',
    re_execute_integrated (stub_oracle (calm 1700000000))
      (Some (sample_request RESPONSE_COMMS_PRIORITY 7)) ready_state [] =
      Some (RESPONSE_ERROR_CRITICAL_FAILURE, s', w') /\
    overall_result (re_get_last_report s') = -99 /\
    status_summary (re_get_last_report s') = "未知响应类型"%string /\
    ops_of (new_events [] w') = [OpMutexLock; OpTime; OpTime; OpMutexUnlock] /\
    (forall t,
       has_handler t = false ->
       re_execute_integrated (stub_oracle (calm 1700000000))
         (Some (with_type t (sample_request RESPONSE_COMMS_PRIORITY 7)))
         ready_state [] =
       Some (RESPONSE_ERROR_CRITICAL_FAILURE, s', w')).
Proof.
  split; [reflexivity |]. split; [reflexivity |]. split; [reflexivity |].
  apply (comms_priority_is_unknown_type (stub_oracle (calm 1700000000))
           (sample_request RESPONSE_COMMS_PRIORITY 7) ready_state []);
    reflexivity.
Defined.

(** ** The published report *)

(** C3 (as amended): the one report is rewritten in place.  A dispatch that
    passes the guard takes the lock, zeroes the live report and fills it field
    by field; all these intermediate values exist only while the dispatcher
    holds the lock, and when the dispatch has returned the lock is free and the
    live report is the complete report of that dispatch.  [re_get_last_report]
    reads the live report in any state, with the lock held or not. *)
Theorem report_rewritten_in_place_under_lock
    (oracle : Oracle) (r : integrated_response_t)
    (s : subsystem_state_t) (w : World) :
  initialized s = true -> lock_held s = false ->
  exists result mid s' w' t0 t1 summary,
    re_execute_integrated_steps oracle r s w = (result, mid ++ [s'], w') /\
    re_execute_integrated oracle (Some r) s w = Some (result, s', w') /\
    Forall (fun st => lock_held st = true) mid /\
    nth_error (map re_get_last_report mid) 1 = Some zero_report /\
    lock_held s' = false /\
    re_get_last_report s' = published_report r t0 result summary t1.
Proof.
  intros Hinit Hlock.
  destruct (re_execute_integrated_steps_eq oracle r s w)
    as (lk & t0 & out & w2 & t1 & ul & Hswitch & Hsteps).
  exists (fst out), (removelast (dispatch_states r s t0 (fst out) (snd out) t1)),
    (last (dispatch_states r s t0 (fst out) (snd out) t1) s),
    (w2 ++ [(OpTime, t1); (OpMutexUnlock, ul)]), t0, t1, (snd out).
  split; [| split; [| split; [| split; [| split]]]].
  - rewrite Hsteps. reflexivity.
  - unfold re_execute_integrated. rewrite Hinit, Hlock. cbn [negb].
    rewrite Hsteps. reflexivity.
  - unfold dispatch_states. cbn [removelast].
    repeat constructor.
  - reflexivity.
  - reflexivity.
  - reflexivity.
Qed.

Lemma report_rewritten_in_place_under_lock_witness :
  initialized ready_state = true /\ lock_held ready_state = false /\
  exists result mid s' w' t0 t1 summary,
    re_execute_integrated_steps (stub_oracle (calm 1700000000))
      lockdown_all_zones ready_state [] = (result, mid ++ [s'], w') /\
    re_execute_integrated (stub_oracle (calm 1700000000))
      (Some lockdown_all_zones) ready_state [] = Some (result, s', w') /\
    Forall (fun st => lock_held st = true) mid /\
    nth_error (map re_get_last_report mid) 1 = Some zero_report /\
    lock_held s' = false /\
    re_get_last_report s' = published_report lockdown_all_zones t0 result summary t1.
Proof.
  split; [reflexivity |]. split; [reflexivity |].
  apply (report_rewritten_in_place_under_lock (stub_oracle (calm 1700000000))
           lockdown_all_zones ready_state []); reflexivity.
Defined.

(** C3 (as stated) fails: after a first dispatch has published its report, a
    second dispatch passes through a state in which the live report, the one
    [re_get_last_report] hands out, is neither the report of the first
    dispatch nor the report the second one ends with: it is the zeroed
    report. *)
Lemma reader_can_see_unfinished_report :
  exists s_prev w_prev result states w_next,
    re_execute_integrated (stub_oracle (calm 1700000000))
      (Some lockdown_all_zones) ready_state [] = Some (0, s_prev, w_prev) /\
    re_execute_integrated_steps (stub_oracle (calm 1700000060))
      (sample_request RESPONSE_EVACUATION 3) s_prev w_prev =
      (result, states, w_next) /\
    exists st,
      In st states /\
      re_get_last_report st = zero_report /\
      re_get_last_report st <> re_get_last_report s_prev /\
      re_get_last_report st <> re_get_last_report (last states s_prev).
Proof.
  do 5 eexists.
  split; [vm_compute; reflexivity |].
  split; [vm_compute; reflexivity |].
  eexists. split; [right; left; reflexivity |].
  split; [reflexivity |].
  split; intros H; discriminate H.
Qed.

(** ** Initialization *)

Lemma init_when_initialized (oracle : Oracle) (s : subsystem_state_t) (w : World) :
  initialized s = true -> re_init_integrated oracle s w = (0, s, w).
Proof. intros H. unfold re_init_integrated. rewrite H. reflexivity. Qed.

Lemma init_success_initialized
    (oracle : Oracle) (s : subsystem_state_t) (w : World)
    (rc : Z) (s1 : subsystem_state_t) (w1 : World) :
  re_init_integrated oracle s w = (rc, s1, w1) -> rc = 0 -> initialized s1 = true.
Proof.
  unfold re_init_integrated, bind, ret.
  destruct (initialized s) eqn:Hinit.
  - intros H _. injection H as _ <- _. exact Hinit.
  - run_call a Ea. destruct (a =? 0); cbn [negb];
      [| intros H Hrc; injection H as <- _ _; discriminate Hrc].
    run_call b Eb. destruct (b =? 0);
      [intros H Hrc; injection H as <- _ _; discriminate Hrc |].
    run_call c Ec. destruct (c =? 0); cbn [negb];
      [| intros H Hrc; injection H as <- _ _; discriminate Hrc].
    run_call d Ed. destruct (d =? 0); cbn [negb];
      [| intros H Hrc; injection H as <- _ _; discriminate Hrc].
    intros H _. injection H as _ <- _. reflexivity.
Qed.

(** C8: once [re_init_integrated] has returned 0, a second call with no
    cleanup in between returns 0 at once: it makes no call at all (no mutex
    initialisation, no readiness check) and leaves the whole state, so also
    [initialized], [emergency_mode] and [current_level], as it was. *)
Theorem init_is_idempotent
    (oracle : Oracle) (s : subsystem_state_t) (w : World)
    (rc : Z) (s1 : subsystem_state_t) (w1 : World) :
  re_init_integrated oracle s w = (rc, s1, w1) -> rc = 0 ->
  initialized s1 = true /\
  re_init_integrated oracle s1 w1 = (0, s1, w1) /\
  new_events w1 (snd (re_init_integrated oracle s1 w1)) = [].
Proof.
  intros Hrun Hrc.
  pose proof (init_success_initialized oracle s w rc s1 w1 Hrun Hrc) as Hinit.
  split; [exact Hinit |].
  rewrite (init_when_initialized oracle s1 w1 Hinit).
  split; [reflexivity |].
  cbn [snd]. rewrite <- (app_nil_r w1) at 2. apply new_events_app.
Qed.

Lemma init_is_idempotent_witness :
  (re_init_integrated (stub_oracle (calm 1700000000)) initial_state [] =
     (0, ready_state,
      [(OpMutexInit, 0); (OpCheckHardwareReadiness, 1);
       (OpInitNetworkSubsystem, 0); (OpInitAccessControl, 0)])) /\
  initialized ready_state = true /\
  re_init_integrated (stub_oracle (calm 1700000000)) ready_state
    [(OpMutexInit, 0); (OpCheckHardwareReadiness, 1);
     (OpInitNetworkSubsystem, 0); (OpInitAccessControl, 0)] =
    (0, ready_state,
     [(OpMutexInit, 0); (OpCheckHardwareReadiness, 1);
      (OpInitNetworkSubsystem, 0); (OpInitAccessControl, 0)]) /\
  new_events
    [(OpMutexInit, 0); (OpCheckHardwareReadiness, 1);
     (OpInitNetworkSubsystem, 0); (OpInitAccessControl, 0)]
    (snd (re_init_integrated (stub_oracle (calm 1700000000)) ready_state
            [(OpMutexInit, 0); (OpCheckHardwareReadiness, 1);
             (OpInitNetworkSubsystem, 0); (OpInitAccessControl, 0)])) = [].
Proof.
  split; [reflexivity |].
  apply (init_is_idempotent (stub_oracle (calm 1700000000)) initial_state [] 0);
    reflexivity.
Defined.

(** ** The emergency trigger *)

(** C6: [re_emergency_sequence] sets [emergency_mode] and stores the level,
    touching nothing else of the state, reads the clock once, and hands
    [pthread_create] exactly one request: a Lockdown of severity 10 over all
    32 zones, for 3600 seconds, with authorisation level 5, the fixed trigger
    text and the clock reading as timestamp; the thread it starts dispatches
    that request. *)
Theorem emergency_sequence_schedules_lockdown
    (oracle : Oracle) (emergency_level : Z) (s : subsystem_state_t) (w : World) :
  exists now created detached s' w',
    let request :=
      {| type := RESPONSE_LOCKDOWN; severity := 10; target_zones := 4294967295;
         duration := 3600; auth_level := AUTH_LEVEL_5;
         trigger_event := "手动紧急触发"; timestamp := wrap_u64 now;
         retry_count := 0; timeout_seconds := 0 |} in
    re_emergency_sequence oracle emergency_level s w = (s', w') /\
    emergency_mode s' = true /\
    current_level s' = emergency_level /\
    initialized s' = initialized s /\
    last_report s' = last_report s /\
    lock_held s' = lock_held s /\
    new_events w w' =
      [(OpTime, now); (OpThreadCreate request, created);
       (OpThreadDetach, detached)] /\
    scheduled_requests (new_events w w') = [request] /\
    set_zones (target_zones request) = zrange 0 32 /\
    (forall s0 w0,
       emergency_thread_wrapper oracle request s0 w0 =
       match re_execute_integrated oracle (Some request) s0 w0 with
       | Some (_, s1, w1) => Some (s1, w1)
       | None => None
       end).
Proof.
  unfold re_emergency_sequence, bind, ret.
  run_call now E1. run_call created E2. run_call detached E3.
  exists now, created, detached. do 2 eexists. cbv zeta.
  split; [reflexivity |].
  rewrite <- !app_assoc, new_events_app.
  repeat split.
Qed.

(** ** Cleanup *)

(** After [re_cleanup_resources] the system is uninitialized: every dispatch
    is rejected with -1 and changes nothing, and a second cleanup makes no
    call and leaves the state as it is. *)
Theorem cleanup_then_dispatch_rejected
    (oracle : Oracle) (response : option integrated_response_t)
    (s : subsystem_state_t) (w : World) :
  exists s1 w1,
    re_cleanup_resources oracle s w = (s1, w1) /\
    initialized s1 = false /\
    re_execute_integrated oracle response s1 w1 = Some (-1, s1, w1) /\
    re_cleanup_resources oracle s1 w1 = (s1, w1).
Proof.
  unfold re_cleanup_resources at 1.
  destruct (initialized s) eqn:Hinit.
  - unfold bind, ret. rewrite !call_eq. cbv beta iota.
    do 2 eexists. split; [reflexivity |].
    split; [reflexivity |]. split.
    + destruct response; reflexivity.
    + reflexivity.
  - exists s, w. unfold ret. split; [reflexivity |].
    split; [exact Hinit |]. split.
    + unfold re_execute_integrated. rewrite Hinit. destruct response; reflexivity.
    + unfold re_cleanup_resources. rewrite Hinit. reflexivity.
Qed.

(** ** The shape of a dispatch *)

Lemma filter_nothing {A : Type} (p : A -> bool) (l : list A) :
  Forall (fun x => p x = false) l -> filter p l = [].
Proof.
  induction 1 as [| x l Hx _ IH]; cbn [filter]; [reflexivity |].
  rewrite Hx. exact IH.
Qed.

Lemma forall_ops_of (P : Op -> Prop) (events : World) :
  Forall P (ops_of events) -> Forall (fun e => P (fst e)) events.
Proof.
  induction events as [| e events IH]; cbn [ops_of map]; intros H.
  - constructor.
  - inversion H; subst. constructor; [assumption | apply IH; assumption].
Qed.

Lemma zone_calls_not_dispatcher_ops (l : list Z) :
  Forall (fun op => is_dispatcher_op op = false)
    (map (fun j => OpSystem (CmdDropZone j)) l).
Proof. induction l; cbn [map]; constructor; [reflexivity | assumption]. Qed.

(** Whatever the type, the [switch] only appends to the world, and what it
    appends contains no lock, unlock or clock call. *)
Lemma dispatch_switch_events
    (oracle : Oracle) (r : integrated_response_t) (w : World) :
  exists result summary events,
    dispatch_switch oracle r w = ((result, summary), w ++ events) /\
    Forall (fun op => is_dispatcher_op op = false) (ops_of events).
Proof.
  unfold dispatch_switch.
  destruct (type r =? RESPONSE_LOCKDOWN).
  { destruct (lockdown_events oracle r w) as (events & Hrun & Hops).
    unfold bind, ret. rewrite Hrun. do 3 eexists. split; [reflexivity |].
    rewrite Hops. repeat constructor. }
  destruct (type r =? RESPONSE_NETWORK_ISOLATE).
  { destruct (network_isolation_events oracle r w) as (events & Hrun & Hops).
    unfold bind, ret. rewrite Hrun. do 3 eexists. split; [reflexivity |].
    rewrite Hops. apply Forall_app. split; [repeat constructor |].
    apply Forall_app. split; [apply zone_calls_not_dispatcher_ops |].
    repeat constructor. }
  destruct (type r =? RESPONSE_SERVICE_FAILOVER).
  { destruct (failover_events oracle r w) as (events & Hrun & Hops).
    unfold bind, ret. rewrite Hrun. do 3 eexists. split; [reflexivity |].
    rewrite Hops. repeat constructor. }
  destruct (type r =? RESPONSE_EVACUATION).
  { destruct (evacuation_events oracle r w) as (rc & Hrun).
    unfold bind, ret. rewrite Hrun. do 3 eexists. split; [reflexivity |].
    repeat constructor. }
  destruct (type r =? RESPONSE_BACKUP_ACTIVATE).
  { unfold bind, ret. run_call rc E. do 3 eexists. split; [reflexivity |].
    repeat constructor. }
  destruct (type r =? RESPONSE_PARTIAL_CONTAIN).
  { unfold bind, ret. run_call rc E. do 3 eexists. split; [reflexivity |].
    repeat constructor. }
  destruct (type r =? RESPONSE_FULL_RECOVERY).
  { unfold bind, ret. run_call rc E. do 3 eexists. split; [reflexivity |].
    repeat constructor. }
  exists (-99), "未知响应类型"%string, []. rewrite app_nil_r.
  split; [reflexivity | constructor].
Qed.

(** A dispatch that passes the guard with the lock free: what it returns,
    the state it leaves and the events it appends. *)
Lemma dispatch_run_shape
    (oracle : Oracle) (r : integrated_response_t)
    (s : subsystem_state_t) (w : World) :
  initialized s = true -> lock_held s = false ->
  exists lk t0 result summary events t1 ul,
    re_execute_integrated oracle (Some r) s w =
      Some (result,
            mk_state true (emergency_mode s) (current_level s)
              (published_report r t0 result summary t1) false,
            w ++ (OpMutexLock, lk) :: (OpTime, t0)
                 :: events ++ [(OpTime, t1); (OpMutexUnlock, ul)]) /\
    dispatch_switch oracle r (w ++ [(OpMutexLock, lk); (OpTime, t0)]) =
      ((result, summary), (w ++ [(OpMutexLock, lk); (OpTime, t0)]) ++ events) /\
    Forall (fun op => is_dispatcher_op op = false) (ops_of events).
Proof.
  intros Hinit Hlock.
  destruct (re_execute_integrated_returns oracle r s w Hinit Hlock)
    as (lk & t0 & out & w2 & t1 & ul & Hswitch & Hrun).
  destruct (dispatch_switch_events oracle r (w ++ [(OpMutexLock, lk); (OpTime, t0)]))
    as (result & summary & events & Hsw & Hops).
  rewrite Hsw in Hswitch. injection Hswitch as <- <-.
  exists lk, t0, result, summary, events, t1, ul.
  split; [| split; [exact Hsw | exact Hops]].
  rewrite Hrun. cbn [fst snd]. rewrite <- !app_assoc. reflexivity.
Qed.

(** What a dispatch publishes is what it returns: the report carries the
    returned code, the timestamp of the request as identifier, the two clock
    readings of the run (the only ones) as start and end time, both within
    64 bits, no error text and the mode MODE_NORMAL; the lifecycle flags are
    untouched and the lock is free again. *)
Theorem dispatch_publishes_what_it_returns
    (oracle : Oracle) (r : integrated_response_t)
    (s : subsystem_state_t) (w : World) :
  initialized s = true -> lock_held s = false ->
  exists result s' w' t0 t1,
    re_execute_integrated oracle (Some r) s w = Some (result, s', w') /\
    overall_result (re_get_last_report s') = result /\
    response_id (re_get_last_report s') = timestamp r /\
    filter (fun e => is_time_call (fst e)) (new_events w w') =
      [(OpTime, t0); (OpTime, t1)] /\
    start_time (re_get_last_report s') = wrap_u64 t0 /\
    end_time (re_get_last_report s') = wrap_u64 t1 /\
    0 <= start_time (re_get_last_report s') < 2 ^ 64 /\
    0 <= end_time (re_get_last_report s') < 2 ^ 64 /\
    system_mode (re_get_last_report s') = MODE_NORMAL /\
    error_details (re_get_last_report s') = ""%string /\
    initialized s' = true /\
    emergency_mode s' = emergency_mode s /\
    current_level s' = current_level s /\
    lock_held s' = false.
Proof.
  intros Hinit Hlock.
  destruct (dispatch_run_shape oracle r s w Hinit Hlock)
    as (lk & t0 & result & summary & events & t1 & ul & Hrun & _ & Hops).
  do 3 eexists. exists t0, t1. split; [exact Hrun |].
  split; [reflexivity |]. split; [reflexivity |]. split.
  { rewrite new_events_app. cbn [filter fst is_time_call].
    rewrite filter_app.
    rewrite (filter_nothing (fun e => is_time_call (fst e)) events).
    - reflexivity.
    - apply forall_ops_of in Hops.
      eapply Forall_impl; [| exact Hops].
      intros [op rc] H. cbn [fst] in *. unfold is_dispatcher_op in H.
      apply orb_false_iff in H. apply H. }
  split; [reflexivity |]. split; [reflexivity |].
  split; [apply Z.mod_pos_bound; reflexivity |].
  split; [apply Z.mod_pos_bound; reflexivity |].
  repeat split.
Qed.

Lemma dispatch_publishes_what_it_returns_witness :
  initialized ready_state = true /\ lock_held ready_state = false /\
  exists result s' w' t0 t1,
    re_execute_integrated (access_lock_fails 1700000000)
      (Some lockdown_all_zones) ready_state [] = Some (result, s', w') /\
    overall_result (re_get_last_report s') = result /\
    response_id (re_get_last_report s') = timestamp lockdown_all_zones /\
    filter (fun e => is_time_call (fst e)) (new_events [] w') =
      [(OpTime, t0); (OpTime, t1)] /\
    start_time (re_get_last_report s') = wrap_u64 t0 /\
    end_time (re_get_last_report s') = wrap_u64 t1 /\
    0 <= start_time (re_get_last_report s') < 2 ^ 64 /\
    0 <= end_time (re_get_last_report s') < 2 ^ 64 /\
    system_mode (re_get_last_report s') = MODE_NORMAL /\
    error_details (re_get_last_report s') = ""%string /\
    initialized s' = true /\
    emergency_mode s' = emergency_mode ready_state /\
    current_level s' = current_level ready_state /\
    lock_held s' = false.
Proof.
  split; [reflexivity |]. split; [reflexivity |].
  apply (dispatch_publishes_what_it_returns (access_lock_fails 1700000000)
           lockdown_all_zones ready_state []); reflexivity.
Defined.

(** Lock discipline: a dispatch that passes the guard takes the lock as its
    first call and releases it as its last; it locks once and unlocks once,
    and the handler in between makes no lock, unlock or clock call. *)
Theorem dispatch_locks_once_and_unlocks_last
    (oracle : Oracle) (r : integrated_response_t)
    (s : subsystem_state_t) (w : World) :
  initialized s = true -> lock_held s = false ->
  exists result s' lk t0 events t1 ul,
    re_execute_integrated oracle (Some r) s w =
      Some (result, s',
            w ++ (OpMutexLock, lk) :: (OpTime, t0)
                 :: events ++ [(OpTime, t1); (OpMutexUnlock, ul)]) /\
    Forall (fun op => is_dispatcher_op op = false) (ops_of events) /\
    count_calls is_lock_call
      ((OpMutexLock, lk) :: (OpTime, t0)
       :: events ++ [(OpTime, t1); (OpMutexUnlock, ul)]) = 1%nat /\
    count_calls is_unlock_call
      ((OpMutexLock, lk) :: (OpTime, t0)
       :: events ++ [(OpTime, t1); (OpMutexUnlock, ul)]) = 1%nat /\
    lock_held s' = false.
Proof.
  intros Hinit Hlock.
  destruct (dispatch_run_shape oracle r s w Hinit Hlock)
    as (lk & t0 & result & summary & events & t1 & ul & Hrun & _ & Hops).
  do 2 eexists. exists lk, t0, events, t1, ul.
  split; [exact Hrun |]. split; [exact Hops |].
  unfold count_calls. cbn [ops_of map fst filter is_lock_call is_unlock_call].
  change (map fst (events ++ [(OpTime, t1); (OpMutexUnlock, ul)]))
    with (ops_of (events ++ [(OpTime, t1); (OpMutexUnlock, ul)])).
  rewrite ops_of_app, !filter_app.
  rewrite (filter_nothing is_lock_call (ops_of events)),
          (filter_nothing is_unlock_call (ops_of events)).
  - repeat split.
  - eapply Forall_impl; [| exact Hops]. intros op H.
    unfold is_dispatcher_op in H. rewrite !orb_false_iff in H. apply H.
  - eapply Forall_impl; [| exact Hops]. intros op H.
    unfold is_dispatcher_op in H. rewrite !orb_false_iff in H. apply H.
Qed.

Lemma dispatch_locks_once_and_unlocks_last_witness :
  initialized ready_state = true /\ lock_held ready_state = false /\
  exists result s' lk t0 events t1 ul,
    re_execute_integrated (scripted [0; 5; 1; 0; 1])
      (Some (sample_request RESPONSE_NETWORK_ISOLATE 545)) ready_state [] =
      Some (result, s',
            [] ++ (OpMutexLock, lk) :: (OpTime, t0)
                  :: events ++ [(OpTime, t1); (OpMutexUnlock, ul)]) /\
    Forall (fun op => is_dispatcher_op op = false) (ops_of events) /\
    count_calls is_lock_call
      ((OpMutexLock, lk) :: (OpTime, t0)
       :: events ++ [(OpTime, t1); (OpMutexUnlock, ul)]) = 1%nat /\
    count_calls is_unlock_call
      ((OpMutexLock, lk) :: (OpTime, t0)
       :: events ++ [(OpTime, t1); (OpMutexUnlock, ul)]) = 1%nat /\
    lock_held s' = false.
Proof.
  split; [reflexivity |]. split; [reflexivity |].
  apply (dispatch_locks_once_and_unlocks_last (scripted [0; 5; 1; 0; 1])
           (sample_request RESPONSE_NETWORK_ISOLATE 545) ready_state []);
    reflexivity.
Defined.

(** ** Initialization failures *)

(** From an uninitialized state [re_init_integrated] runs its four checks in
    order and stops at the first that fails, with a code of its own: -1 mutex,
    -2 hardware, -3 network, -4 access control.  A failed call leaves the
    system uninitialized and makes no call after the failing check (and none
    to undo the checks that passed); only the run in which all four pass
    returns 0, sets [initialized] and clears [emergency_mode] and
    [current_level]. *)
Theorem init_fails_fast_with_distinct_codes
    (oracle : Oracle) (s : subsystem_state_t) (w : World) :
  initialized s = false ->
  exists rc s' events,
    re_init_integrated oracle s w = (rc, s', w ++ events) /\
    ((exists a, a <> 0 /\ events = [(OpMutexInit, a)] /\ rc = -1 /\ s' = s) \/
     (events = [(OpMutexInit, 0); (OpCheckHardwareReadiness, 0)] /\
      rc = -2 /\ s' = with_lock_held false s) \/
     (exists c, c <> 0 /\
        events = [(OpMutexInit, 0); (OpCheckHardwareReadiness, 1);
                  (OpInitNetworkSubsystem, c)] /\
        rc = -3 /\ s' = with_lock_held false s) \/
     (exists d, d <> 0 /\
        events = [(OpMutexInit, 0); (OpCheckHardwareReadiness, 1);
                  (OpInitNetworkSubsystem, 0); (OpInitAccessControl, d)] /\
        rc = -4 /\ s' = with_lock_held false s) \/
     (events = [(OpMutexInit, 0); (OpCheckHardwareReadiness, 1);
                (OpInitNetworkSubsystem, 0); (OpInitAccessControl, 0)] /\
      rc = 0 /\
      s' = mk_state true false 0 (last_report s) false)) /\
    (rc <> 0 ->
     initialized s' = false /\ emergency_mode s' = emergency_mode s /\
     current_level s' = current_level s /\ last_report s' = last_report s).
Proof.
  intros Hinit. unfold re_init_integrated, bind, ret. rewrite Hinit.
  run_call a Ea. destruct (Z.eqb_spec a 0) as [-> | Ha]; cbn [negb].
  2: { exists (-1), s, [(OpMutexInit, a)]. split; [reflexivity |]. split.
       - left. exists a. auto.
       - intros _. auto. }
  run_call b Eb. cbn [op_type coerce] in Eb.
  destruct (oracle (w ++ [(OpMutexInit, 0)]) OpCheckHardwareReadiness =? 0);
    subst b.
  { change (0 =? 0) with true. cbv iota.
    exists (-2), (with_lock_held false s). eexists.
    rewrite <- app_assoc. split; [reflexivity |]. split.
    - right. left. auto.
    - intros _. cbn. auto. }
  change (1 =? 0) with false. cbv beta iota.
  run_call c Ec. destruct (Z.eqb_spec c 0) as [-> | Hc]; cbn [negb].
  2: { exists (-3), (with_lock_held false s). eexists.
       rewrite <- !app_assoc. split; [reflexivity |]. split.
       - right. right. left. exists c. auto.
       - intros _. cbn. auto. }
  run_call d Ed. destruct (Z.eqb_spec d 0) as [-> | Hd]; cbn [negb].
  2: { exists (-4), (with_lock_held false s). eexists.
       rewrite <- !app_assoc. split; [reflexivity |]. split.
       - right. right. right. left. exists d. auto.
       - intros _. cbn. auto. }
  exists 0. do 2 eexists. rewrite <- !app_assoc. split; [reflexivity |]. split.
  - right. right. right. right. auto.
  - intros H. contradiction H. reflexivity.
Qed.

Lemma init_fails_fast_with_distinct_codes_witness :
  initialized initial_state = false /\
  exists rc s' events,
    re_init_integrated (scripted [0; 1; 7]) initial_state [] =
      (rc, s', [] ++ events) /\
    ((exists a, a <> 0 /\ events = [(OpMutexInit, a)] /\ rc = -1 /\
        s' = initial_state) \/
     (events = [(OpMutexInit, 0); (OpCheckHardwareReadiness, 0)] /\
      rc = -2 /\ s' = with_lock_held false initial_state) \/
     (exists c, c <> 0 /\
        events = [(OpMutexInit, 0); (OpCheckHardwareReadiness, 1);
                  (OpInitNetworkSubsystem, c)] /\
        rc = -3 /\ s' = with_lock_held false initial_state) \/
     (exists d, d <> 0 /\
        events = [(OpMutexInit, 0); (OpCheckHardwareReadiness, 1);
                  (OpInitNetworkSubsystem, 0); (OpInitAccessControl, d)] /\
        rc = -4 /\ s' = with_lock_held false initial_state) \/
     (events = [(OpMutexInit, 0); (OpCheckHardwareReadiness, 1);
                (OpInitNetworkSubsystem, 0); (OpInitAccessControl, 0)] /\
      rc = 0 /\
      s' = mk_state true false 0 (last_report initial_state) false)) /\
    (rc <> 0 ->
     initialized s' = false /\
     emergency_mode s' = emergency_mode initial_state /\
     current_level s' = current_level initial_state /\
     last_report s' = last_report initial_state).
Proof.
  split; [reflexivity |].
  apply (init_fails_fast_with_distinct_codes (scripted [0; 1; 7]) initial_state []).
  reflexivity.
Defined.

(** The state a successful run of the checks leaves. *)
Lemma init_success_state
    (oracle : Oracle) (s : subsystem_state_t) (w : World)
    (s' : subsystem_state_t) (w' : World) :
  initialized s = false ->
  re_init_integrated oracle s w = (0, s', w') ->
  s' = mk_state true false 0 (last_report s) false.
Proof.
  intros Hinit. unfold re_init_integrated, bind, ret. rewrite Hinit.
  run_call a Ea. destruct (a =? 0); cbn [negb];
    [| intros H; discriminate H].
  run_call b Eb. destruct (b =? 0); [intros H; discriminate H |].
  run_call c Ec. destruct (c =? 0); cbn [negb];
    [| intros H; discriminate H].
  run_call d Ed. destruct (d =? 0); cbn [negb];
    [| intros H; discriminate H].
  intros H. injection H as <- _. reflexivity.
Qed.

(** ** Emergency mode and readiness *)

(** With the lock free a dispatch returns, and it leaves the lifecycle flags
    as they were. *)
Lemma dispatch_keeps_flags
    (oracle : Oracle) (response : option integrated_response_t)
    (s : subsystem_state_t) (w : World) :
  lock_held s = false ->
  exists rc s' w',
    re_execute_integrated oracle response s w = Some (rc, s', w') /\
    initialized s' = initialized s /\
    emergency_mode s' = emergency_mode s /\
    current_level s' = current_level s /\
    lock_held s' = false.
Proof.
  intros Hlock.
  destruct response as [r |]; [| exists (-1), s, w; auto].
  destruct (initialized s) eqn:Hinit.
  - destruct (dispatch_run_shape oracle r s w Hinit Hlock)
      as (lk & t0 & result & summary & events & t1 & ul & Hrun & _).
    do 3 eexists. split; [exact Hrun |]. auto.
  - exists (-1), s, w. unfold re_execute_integrated. rewrite Hinit. auto.
Qed.

(** Once [re_emergency_sequence] has run, the system is not ready, and
    [re_subsystem_ready] says so without probing the hardware.  A dispatch
    does not change that: it keeps [emergency_mode] and [current_level].  Nor
    does [re_init_integrated] on the initialized system: it returns 0 and
    leaves the emergency mode set. *)
Theorem emergency_mode_blocks_readiness
    (oracle : Oracle) (emergency_level : Z)
    (response : option integrated_response_t)
    (s : subsystem_state_t) (w : World) :
  lock_held s = false ->
  exists s1 w1 rc s2 w2,
    re_emergency_sequence oracle emergency_level s w = (s1, w1) /\
    re_subsystem_ready oracle s1 w1 = (false, w1) /\
    re_execute_integrated oracle response s1 w1 = Some (rc, s2, w2) /\
    emergency_mode s2 = true /\
    current_level s2 = emergency_level /\
    re_subsystem_ready oracle s2 w2 = (false, w2) /\
    (initialized s = true ->
     re_init_integrated oracle s2 w2 = (0, s2, w2) /\
     fst (re_subsystem_ready oracle s2 w2) = false).
Proof.
  intros Hlock.
  destruct (re_emergency_sequence oracle emergency_level s w) as [s1 w1] eqn:Hem.
  assert (Hs1 : s1 = with_current_level emergency_level (with_emergency_mode true s)).
  { unfold re_emergency_sequence, bind, ret in Hem.
    rewrite !call_eq in Hem. cbv beta iota in Hem.
    injection Hem as <- _. reflexivity. }
  assert (Hnot : forall st w0,
            emergency_mode st = true -> re_subsystem_ready oracle st w0 = (false, w0)).
  { intros st w0 H. unfold re_subsystem_ready. rewrite H, andb_false_r.
    reflexivity. }
  destruct (dispatch_keeps_flags oracle response s1 w1)
    as (rc & s2 & w2 & Hrun & Hi & He & Hl & Hk).
  { subst s1. exact Hlock. }
  assert (He2 : emergency_mode s2 = true) by (rewrite He; subst s1; reflexivity).
  exists s1, w1, rc, s2, w2.
  split; [reflexivity |].
  split; [apply Hnot; subst s1; reflexivity |].
  split; [exact Hrun |]. split; [exact He2 |].
  split; [rewrite Hl; subst s1; reflexivity |].
  split; [apply Hnot; exact He2 |].
  intros Hinit. split.
  - apply init_when_initialized. rewrite Hi. subst s1. exact Hinit.
  - rewrite (Hnot s2 w2 He2). reflexivity.
Qed.

Lemma emergency_mode_blocks_readiness_witness :
  lock_held ready_state = false /\
  exists s1 w1 rc s2 w2,
    re_emergency_sequence (stub_oracle (calm 1700000000)) 9 ready_state [] =
      (s1, w1) /\
    re_subsystem_ready (stub_oracle (calm 1700000000)) s1 w1 = (false, w1) /\
    re_execute_integrated (stub_oracle (calm 1700000000))
      (Some lockdown_all_zones) s1 w1 = Some (rc, s2, w2) /\
    emergency_mode s2 = true /\
    current_level s2 = 9 /\
    re_subsystem_ready (stub_oracle (calm 1700000000)) s2 w2 = (false, w2) /\
    (initialized ready_state = true ->
     re_init_integrated (stub_oracle (calm 1700000000)) s2 w2 = (0, s2, w2) /\
     fst (re_subsystem_ready (stub_oracle (calm 1700000000)) s2 w2) = false).
Proof.
  split; [reflexivity |].
  apply (emergency_mode_blocks_readiness (stub_oracle (calm 1700000000)) 9
           (Some lockdown_all_zones) ready_state []).
  reflexivity.
Defined.

(** The way out of the emergency mode: a cleanup followed by an
    initialization that passes its checks leaves the system initialized with
    [emergency_mode] cleared and [current_level] 0, whatever they were, and
    then the system is ready exactly when the hardware probe says so. *)
Theorem reinit_after_cleanup_clears_emergency
    (oracle : Oracle) (s : subsystem_state_t) (w : World)
    (s1 : subsystem_state_t) (w1 : World)
    (s2 : subsystem_state_t) (w2 : World) :
  re_cleanup_resources oracle s w = (s1, w1) ->
  re_init_integrated oracle s1 w1 = (0, s2, w2) ->
  initialized s2 = true /\ emergency_mode s2 = false /\ current_level s2 = 0 /\
  last_report s2 = last_report s /\
  exists probe,
    re_subsystem_ready oracle s2 w2 =
      (negb (probe =? 0), w2 ++ [(OpCheckHardwareReadiness, probe)]).
Proof.
  intros Hclean Hinit.
  assert (Hs1 : initialized s1 = false /\ last_report s1 = last_report s).
  { unfold re_cleanup_resources in Hclean.
    destruct (initialized s) eqn:Hi.
    - unfold bind, ret in Hclean. rewrite !call_eq in Hclean.
      cbv beta iota in Hclean. injection Hclean as <- _. split; reflexivity.
    - unfold ret in Hclean. injection Hclean as <- _. split; [exact Hi | reflexivity]. }
  destruct Hs1 as [Hun Hrep].
  rewrite (init_success_state oracle s1 w1 s2 w2 Hun Hinit).
  cbn [initialized emergency_mode current_level last_report].
  repeat split; try assumption.
  unfold re_subsystem_ready, bind, ret. cbn [initialized emergency_mode negb andb].
  run_call probe E. exists probe. reflexivity.
Qed.

Lemma reinit_after_cleanup_clears_emergency_witness :
  re_cleanup_resources (stub_oracle (calm 1700000000))
    (mk_state true true 9 zero_report false) [] =
    (mk_state false true 9 zero_report false,
     [(OpRestoreNormalAccess, 0); (OpCleanupNetworkRules, 0);
      (OpStopEmergencyServices, 0); (OpMutexDestroy, 0)]) /\
  re_init_integrated (stub_oracle (calm 1700000000))
    (mk_state false true 9 zero_report false)
    [(OpRestoreNormalAccess, 0); (OpCleanupNetworkRules, 0);
     (OpStopEmergencyServices, 0); (OpMutexDestroy, 0)] =
    (0, ready_state,
     [(OpRestoreNormalAccess, 0); (OpCleanupNetworkRules, 0);
      (OpStopEmergencyServices, 0); (OpMutexDestroy, 0);
      (OpMutexInit, 0); (OpCheckHardwareReadiness, 1);
      (OpInitNetworkSubsystem, 0); (OpInitAccessControl, 0)]) /\
  initialized ready_state = true /\ emergency_mode ready_state = false /\
  current_level ready_state = 0 /\
  last_report ready_state = last_report (mk_state true true 9 zero_report false) /\
  exists probe,
    re_subsystem_ready (stub_oracle (calm 1700000000)) ready_state
      [(OpRestoreNormalAccess, 0); (OpCleanupNetworkRules, 0);
       (OpStopEmergencyServices, 0); (OpMutexDestroy, 0);
       (OpMutexInit, 0); (OpCheckHardwareReadiness, 1);
       (OpInitNetworkSubsystem, 0); (OpInitAccessControl, 0)] =
      (negb (probe =? 0),
       [(OpRestoreNormalAccess, 0); (OpCleanupNetworkRules, 0);
        (OpStopEmergencyServices, 0); (OpMutexDestroy, 0);
        (OpMutexInit, 0); (OpCheckHardwareReadiness, 1);
        (OpInitNetworkSubsystem, 0); (OpInitAccessControl, 0)]
       ++ [(OpCheckHardwareReadiness, probe)]).
Proof.
  split; [reflexivity |]. split; [reflexivity |].
  apply (reinit_after_cleanup_clears_emergency (stub_oracle (calm 1700000000))
           (mk_state true true 9 zero_report false) []
           (mk_state false true 9 zero_report false)
           [(OpRestoreNormalAccess, 0); (OpCleanupNetworkRules, 0);
            (OpStopEmergencyServices, 0); (OpMutexDestroy, 0)]);
    reflexivity.
Defined.

(** ** Success of a handler *)

Lemma failure_codes_are_negative (op : Op) (code : Z) :
  failure_code_of op = Some code -> -3 <= code <= -1.
Proof.
  destruct op as [c | | | | | | | | | | | | | | | | | | | | | | | | |];
    try destruct c; cbn; intros H; inversion H; lia.
Qed.

(** The result either is the initial value, and then no coded step failed,
    or is the code of a logged step that did fail. *)
Lemma overwrite_result_cases (acc : Z) (events : World) :
  (overwrite_result acc events = acc /\ existsb step_failed events = false) \/
  (exists op rc code,
     In (op, rc) events /\ rc <> 0 /\ failure_code_of op = Some code /\
     overwrite_result acc events = code).
Proof.
  induction events as [| [op rc] events IH] using rev_ind.
  - left. split; reflexivity.
  - rewrite overwrite_result_snoc, existsb_app.
    cbn [existsb]. unfold step_failed at 2. cbn [fst snd].
    destruct (failure_code_of op) as [code |] eqn:Hcode.
    + destruct (Z.eqb_spec rc 0) as [-> | Hrc]; cbn [negb].
      * rewrite !orb_false_r.
        destruct IH as [IH | (op' & rc' & code' & Hin & H)].
        -- left. exact IH.
        -- right. exists op', rc', code'. split; [| exact H].
           apply in_or_app. left. exact Hin.
      * right. exists op, rc, code. split; [| auto].
        apply in_or_app. right. left. reflexivity.
    + rewrite !orb_false_r.
      destruct IH as [IH | (op' & rc' & code' & Hin & H)].
      * left. exact IH.
      * right. exists op', rc', code'. split; [| exact H].
        apply in_or_app. left. exact Hin.
Qed.

Lemma failed_step_is_found (events : World) (op : Op) (rc code : Z) :
  In (op, rc) events -> rc <> 0 -> failure_code_of op = Some code ->
  existsb step_failed events = true.
Proof.
  intros Hin Hrc Hcode. apply existsb_exists. exists (op, rc).
  split; [exact Hin |]. unfold step_failed. cbn [fst snd]. rewrite Hcode.
  destruct (Z.eqb_spec rc 0); [contradiction | reflexivity].
Qed.

Lemma result_zero_iff_no_failed_step (events : World) :
  (overwrite_result 0 events = 0 <-> existsb step_failed events = false) /\
  -3 <= overwrite_result 0 events <= 0.
Proof.
  destruct (overwrite_result_cases 0 events)
    as [[Hres Hnone] | (op & rc & code & Hin & Hrc & Hcode & Hres)].
  - rewrite Hres. split; [split; auto | lia].
  - pose proof (failure_codes_are_negative op code Hcode) as Hneg.
    rewrite (failed_step_is_found events op rc code Hin Hrc Hcode), Hres.
    split; [split; [lia | discriminate] | lia].
Qed.

(** Each sequence handler returns 0 exactly when none of its steps that
    carry a failure code returned non-zero; otherwise it returns one of
    -1, -2, -3, never a positive value. *)
Theorem handlers_succeed_iff_no_coded_step_failed
    (oracle : Oracle) (r : integrated_response_t) (w : World) :
  (exists result events,
     execute_lockdown_sequence oracle r w = (result, w ++ events) /\
     (result = 0 <-> existsb step_failed events = false) /\
     -3 <= result <= 0) /\
  (exists result events,
     execute_network_isolation oracle r w = (result, w ++ events) /\
     (result = 0 <-> existsb step_failed events = false) /\
     -3 <= result <= 0) /\
  (exists result events,
     execute_service_failover oracle r w = (result, w ++ events) /\
     (result = 0 <-> existsb step_failed events = false) /\
     -3 <= result <= 0) /\
  (exists result events,
     execute_evacuation_protocol oracle r w = (result, w ++ events) /\
     (result = 0 <-> existsb step_failed events = false) /\
     -3 <= result <= 0).
Proof.
  split; [| split; [| split]].
  - destruct (lockdown_events oracle r w) as (events & Hrun & _).
    do 2 eexists. split; [exact Hrun |]. apply result_zero_iff_no_failed_step.
  - destruct (network_isolation_events oracle r w) as (events & Hrun & _).
    do 2 eexists. split; [exact Hrun |]. apply result_zero_iff_no_failed_step.
  - destruct (failover_events oracle r w) as (events & Hrun & _).
    do 2 eexists. split; [exact Hrun |]. apply result_zero_iff_no_failed_step.
  - destruct (evacuation_events oracle r w) as (rc & Hrun).
    do 2 eexists. split; [exact Hrun |].
    unfold step_failed. cbn [existsb failure_code_of fst snd].
    rewrite !orb_false_r.
    destruct (Z.eqb_spec rc 0); cbn [negb];
      (split; [split; intros H; first [reflexivity | discriminate H] | lia]).
Qed.

(** The tallies of Lockdown: [total_ops] is 4 and [success_ops] is the
    number of the four steps that returned 0.  The result is 0 exactly when
    the first three steps succeeded: a failure of the surveillance step lowers
    the tally but is not reported in the result. *)
Theorem lockdown_tally_counts_successes
    (oracle : Oracle) (r : integrated_response_t) (w : World) :
  exists rc1 rc2 rc3 rc4 result success_ops,
    let events :=
      [(OpLockdownPhysicalAccess (target_zones r) (duration r), rc1);
       (OpIsolateNetworkSegments (target_zones r) (severity r), rc2);
       (OpStopNonCriticalServices (target_zones r), rc3);
       (OpEnhanceSurveillance (target_zones r), rc4)] in
    execute_lockdown_sequence_locals oracle r w =
      (result, success_ops, 4, w ++ events) /\
    execute_lockdown_sequence oracle r w = (result, w ++ events) /\
    success_ops = Z.of_nat (List.length (filter (fun e => snd e =? 0) events)) /\
    0 <= success_ops <= 4 /\
    (result = 0 <-> rc1 = 0 /\ rc2 = 0 /\ rc3 = 0) /\
    (success_ops = 4 <-> result = 0 /\ rc4 = 0).
Proof.
  destruct (lockdown_locals_events oracle r w) as (rc1 & rc2 & rc3 & rc4 & H).
  cbv zeta in H.
  exists rc1, rc2, rc3, rc4. do 2 eexists. cbv zeta.
  split; [exact H |].
  split; [unfold execute_lockdown_sequence, bind, ret; rewrite H; reflexivity |].
  split; [reflexivity |].
  unfold overwrite_result. cbn [fold_left filter failure_code_of fst snd].
  destruct (Z.eqb_spec rc1 0), (Z.eqb_spec rc2 0), (Z.eqb_spec rc3 0),
    (Z.eqb_spec rc4 0); cbn [List.length filter];
    repeat split; intros; try lia; try tauto.
Qed.

(** ** Network isolation: result *)

(** NetworkIsolate returns -1 exactly when one of the per-zone rule calls
    returned non-zero, and 0 otherwise: what the two calls that prepare the
    chain and the activation call return never reaches the result.  With an
    empty zone mask there is no per-zone call, only these three, and the
    result is 0. *)
Theorem network_isolation_fails_iff_a_zone_rule_fails
    (oracle : Oracle) (r : integrated_response_t) (w : World) :
  exists result events,
    execute_network_isolation oracle r w = (result, w ++ events) /\
    (result = 0 \/ result = -1) /\
    (result = -1 <->
     exists i rc, In (OpSystem (CmdDropZone i), rc) events /\ rc <> 0) /\
    (target_zones r = 0 ->
     ops_of events =
       [OpSystem CmdFlushChain; OpSystem CmdNewChain; OpSystem CmdApplyChain] /\
     result = 0).
Proof.
  destruct (network_isolation_events oracle r w) as (events & Hrun & Hops).
  exists (overwrite_result 0 events), events. split; [exact Hrun |].
  assert (Hcoded : forall op rc code,
            In (op, rc) events -> failure_code_of op = Some code ->
            code = -1 /\ exists i, op = OpSystem (CmdDropZone i)).
  { intros op rc code Hin Hcode.
    assert (Hop : In op (ops_of events)) by (apply (in_map fst _ _ Hin)).
    rewrite Hops in Hop. apply in_app_or in Hop.
    destruct Hop as [Hop | Hop].
    - destruct Hop as [<- | [<- | []]]; discriminate Hcode.
    - apply in_app_or in Hop. destruct Hop as [Hop | Hop].
      + apply in_map_iff in Hop. destruct Hop as (i & <- & _).
        cbn in Hcode. injection Hcode as <-. split; [reflexivity | eauto].
      + destruct Hop as [<- | []]. discriminate Hcode. }
  destruct (overwrite_result_cases 0 events)
    as [[Hres Hnone] | (op & rc & code & Hin & Hrc & Hcode & Hres)].
  - rewrite Hres. split; [left; reflexivity |]. split.
    + split; [intros H; discriminate H |].
      intros (i & rc & Hin & Hrc).
      rewrite (failed_step_is_found events _ rc (-1) Hin Hrc eq_refl) in Hnone.
      discriminate Hnone.
    + intros Hzero. split; [| reflexivity].
      rewrite Hops, Hzero. reflexivity.
  - destruct (Hcoded op rc code Hin Hcode) as [-> (i & ->)].
    rewrite Hres. split; [right; reflexivity |]. split.
    + split; [intros _; exists i, rc; auto | reflexivity].
    + intros Hzero. exfalso.
      assert (Hop : In (OpSystem (CmdDropZone i)) (ops_of events))
        by (apply (in_map fst _ _ Hin)).
      rewrite Hops, Hzero in Hop.
      destruct Hop as [H | [H | [H | []]]]; discriminate H.
Qed.

(** ** The emergency thread *)

Lemma emergency_sequence_run
    (oracle : Oracle) (emergency_level : Z) (s : subsystem_state_t) (w : World) :
  exists now created detached,
    re_emergency_sequence oracle emergency_level s w =
      (with_current_level emergency_level (with_emergency_mode true s),
       w ++ [(OpTime, now); (OpThreadCreate (emergency_request now), created);
             (OpThreadDetach, detached)]).
Proof.
  unfold re_emergency_sequence, bind, ret.
  run_call now E1. run_call created E2. run_call detached E3.
  exists now, created, detached. rewrite <- !app_assoc. reflexivity.
Qed.

(** The emergency trigger does not look at [initialized], but the dispatch it
    schedules does: on an uninitialized system the trigger sets the emergency
    mode and starts the thread, and the thread's dispatch is rejected by the
    guard, so no controller is called and no report is written. *)
Theorem emergency_on_uninitialized_system_locks_nothing
    (oracle : Oracle) (emergency_level : Z) (s : subsystem_state_t) (w : World) :
  initialized s = false ->
  exists now s1 w1,
    re_emergency_sequence oracle emergency_level s w = (s1, w1) /\
    scheduled_requests (new_events w w1) = [emergency_request now] /\
    emergency_mode s1 = true /\
    initialized s1 = false /\
    re_execute_integrated oracle (Some (emergency_request now)) s1 w1 =
      Some (-1, s1, w1) /\
    emergency_thread_wrapper oracle (emergency_request now) s1 w1 = Some (s1, w1) /\
    re_get_last_report s1 = re_get_last_report s.
Proof.
  intros Hinit.
  destruct (emergency_sequence_run oracle emergency_level s w)
    as (now & created & detached & Hrun).
  do 3 eexists. split; [exact Hrun |].
  rewrite new_events_app.
  assert (Hguard :
    re_execute_integrated oracle (Some (emergency_request now))
      (with_current_level emergency_level (with_emergency_mode true s))
      (w ++ [(OpTime, now); (OpThreadCreate (emergency_request now), created);
             (OpThreadDetach, detached)]) =
    Some (-1, with_current_level emergency_level (with_emergency_mode true s),
          w ++ [(OpTime, now); (OpThreadCreate (emergency_request now), created);
                (OpThreadDetach, detached)])).
  { unfold re_execute_integrated.
    cbn [initialized with_current_level with_emergency_mode].
    rewrite Hinit. reflexivity. }
  split; [reflexivity |]. split; [reflexivity |]. split; [exact Hinit |].
  split; [exact Hguard |]. split; [| reflexivity].
  unfold emergency_thread_wrapper. rewrite Hguard. reflexivity.
Qed.

Lemma emergency_on_uninitialized_system_locks_nothing_witness :
  initialized initial_state = false /\
  exists now s1 w1,
    re_emergency_sequence (stub_oracle (calm 1700000000)) 9 initial_state [] =
      (s1, w1) /\
    scheduled_requests (new_events [] w1) = [emergency_request now] /\
    emergency_mode s1 = true /\
    initialized s1 = false /\
    re_execute_integrated (stub_oracle (calm 1700000000))
      (Some (emergency_request now)) s1 w1 = Some (-1, s1, w1) /\
    emergency_thread_wrapper (stub_oracle (calm 1700000000))
      (emergency_request now) s1 w1 = Some (s1, w1) /\
    re_get_last_report s1 = re_get_last_report initial_state.
Proof.
  split; [reflexivity |].
  apply (emergency_on_uninitialized_system_locks_nothing
           (stub_oracle (calm 1700000000)) 9 initial_state []).
  reflexivity.
Defined.



(** ** What the report says about the outcome *)

(** The summary text is chosen by the type of the request alone. *)
Lemma dispatch_switch_summary
    (o1 o2 : Oracle) (r : integrated_response_t) (w1 w2 : World) :
  snd (fst (dispatch_switch o1 r w1)) = snd (fst (dispatch_switch o2 r w2)).
Proof.
  unfold dispatch_switch.
  destruct (type r =? RESPONSE_LOCKDOWN).
  { unfold bind, ret.
    destruct (execute_lockdown_sequence o1 r w1),
      (execute_lockdown_sequence o2 r w2). reflexivity. }
  destruct (type r =? RESPONSE_NETWORK_ISOLATE).
  { unfold bind, ret.
    destruct (execute_network_isolation o1 r w1),
      (execute_network_isolation o2 r w2). reflexivity. }
  destruct (type r =? RESPONSE_SERVICE_FAILOVER).
  { unfold bind, ret.
    destruct (execute_service_failover o1 r w1),
      (execute_service_failover o2 r w2). reflexivity. }
  destruct (type r =? RESPONSE_EVACUATION).
  { unfold bind, ret.
    destruct (execute_evacuation_protocol o1 r w1),
      (execute_evacuation_protocol o2 r w2). reflexivity. }
  destruct (type r =? RESPONSE_BACKUP_ACTIVATE); [reflexivity |].
  destruct (type r =? RESPONSE_PARTIAL_CONTAIN); [reflexivity |].
  destruct (type r =? RESPONSE_FULL_RECOVERY); reflexivity.
Qed.

(** The texts of the report do not reflect the outcome: two dispatches of
    the same request publish the same [status_summary], whatever the steps
    returned in either run (so also when one run succeeded and the other
    failed), and [error_details] is empty in both. *)
Theorem status_summary_ignores_outcomes
    (o1 o2 : Oracle) (r : integrated_response_t)
    (s1 s2 : subsystem_state_t) (w1 w2 : World) :
  initialized s1 = true -> lock_held s1 = false ->
  initialized s2 = true -> lock_held s2 = false ->
  exists rc1 s1' w1' rc2 s2' w2',
    re_execute_integrated o1 (Some r) s1 w1 = Some (rc1, s1', w1') /\
    re_execute_integrated o2 (Some r) s2 w2 = Some (rc2, s2', w2') /\
    status_summary (re_get_last_report s1') =
      status_summary (re_get_last_report s2') /\
    error_details (re_get_last_report s1') = ""%string /\
    error_details (re_get_last_report s2') = ""%string.
Proof.
  intros Hi1 Hl1 Hi2 Hl2.
  destruct (dispatch_run_shape o1 r s1 w1 Hi1 Hl1)
    as (lk & t0 & res & summary & events & t1 & ul & Hrun & Hsw & _).
  destruct (dispatch_run_shape o2 r s2 w2 Hi2 Hl2)
    as (lk' & t0' & res' & summary' & events' & t1' & ul' & Hrun' & Hsw' & _).
  do 6 eexists. split; [exact Hrun |]. split; [exact Hrun' |].
  split; [| split; reflexivity].
  cbn [re_get_last_report last_report published_report status_summary].
  pose proof (dispatch_switch_summary o1 o2 r
                (w1 ++ [(OpMutexLock, lk); (OpTime, t0)])
                (w2 ++ [(OpMutexLock, lk'); (OpTime, t0')])) as H.
  rewrite Hsw, Hsw' in H. exact H.
Qed.

Lemma status_summary_ignores_outcomes_witness :
  initialized ready_state = true /\ lock_held ready_state = false /\
  exists rc1 s1' w1' rc2 s2' w2',
    re_execute_integrated (stub_oracle (calm 1700000000))
      (Some lockdown_all_zones) ready_state [] = Some (rc1, s1', w1') /\
    re_execute_integrated (access_lock_fails 1700000000)
      (Some lockdown_all_zones) ready_state [] = Some (rc2, s2', w2') /\
    status_summary (re_get_last_report s1') =
      status_summary (re_get_last_report s2') /\
    error_details (re_get_last_report s1') = ""%string /\
    error_details (re_get_last_report s2') = ""%string.
Proof.
  split; [reflexivity |]. split; [reflexivity |].
  apply (status_summary_ignores_outcomes (stub_oracle (calm 1700000000))
           (access_lock_fails 1700000000) lockdown_all_zones
           ready_state ready_state [] []); reflexivity.
Defined.

(** ** Single-call response types *)

Lemma wrap_s32_range (z : Z) : - 2 ^ 31 <= wrap_s32 z < 2 ^ 31.
Proof.
  unfold wrap_s32.
  pose proof (Z.mod_pos_bound (z + 2 ^ 31) (2 ^ 32) eq_refl) as H.
  change (2 ^ 32) with (2 * 2 ^ 31) in *. lia.
Qed.

(** For BackupActivate, PartialContain and FullRecovery the dispatcher makes
    exactly one controller call between its two clock readings and passes on
    what the controller returned, unchanged: it is the returned code and the
    report's [overall_result], whatever its sign. *)
Theorem single_call_types_pass_on_controller_code
    (oracle : Oracle) (r : integrated_response_t) (op : Op)
    (s : subsystem_state_t) (w : World) :
  single_call_op r = Some op ->
  initialized s = true -> lock_held s = false ->
  exists rc s' lk t0 t1 ul,
    re_execute_integrated oracle (Some r) s w =
      Some (rc, s',
            w ++ [(OpMutexLock, lk); (OpTime, t0); (op, rc);
                  (OpTime, t1); (OpMutexUnlock, ul)]) /\
    overall_result (re_get_last_report s') = rc /\
    - 2 ^ 31 <= rc < 2 ^ 31.
Proof.
  intros Hop Hinit Hlock.
  destruct (dispatch_run_shape oracle r s w Hinit Hlock)
    as (lk & t0 & result & summary & events & t1 & ul & Hrun & Hsw & _).
  set (w0 := w ++ [(OpMutexLock, lk); (OpTime, t0)]) in *.
  assert (Hone : events = [(op, result)] /\ - 2 ^ 31 <= result < 2 ^ 31).
  { unfold single_call_op in Hop. unfold dispatch_switch in Hsw.
    destruct (Z.eqb_spec (type r) RESPONSE_BACKUP_ACTIVATE) as [E | _].
    { rewrite E in Hsw. cbn [Z.eqb RESPONSE_BACKUP_ACTIVATE RESPONSE_LOCKDOWN
        RESPONSE_NETWORK_ISOLATE RESPONSE_SERVICE_FAILOVER RESPONSE_EVACUATION
        Pos.eqb] in Hsw.
      unfold bind, ret in Hsw. rewrite call_eq in Hsw.
      injection Hop as <-. injection Hsw as <- _ Hev.
      apply app_inv_head in Hev. subst events.
      split; [reflexivity | apply wrap_s32_range]. }
    destruct (Z.eqb_spec (type r) RESPONSE_PARTIAL_CONTAIN) as [E | _].
    { rewrite E in Hsw. cbn [Z.eqb RESPONSE_BACKUP_ACTIVATE RESPONSE_LOCKDOWN
        RESPONSE_NETWORK_ISOLATE RESPONSE_SERVICE_FAILOVER RESPONSE_EVACUATION
        RESPONSE_PARTIAL_CONTAIN Pos.eqb] in Hsw.
      unfold bind, ret in Hsw. rewrite call_eq in Hsw.
      injection Hop as <-. injection Hsw as <- _ Hev.
      apply app_inv_head in Hev. subst events.
      split; [reflexivity | apply wrap_s32_range]. }
    destruct (Z.eqb_spec (type r) RESPONSE_FULL_RECOVERY) as [E | _];
      [| discriminate Hop].
    rewrite E in Hsw. cbn [Z.eqb RESPONSE_BACKUP_ACTIVATE RESPONSE_LOCKDOWN
      RESPONSE_NETWORK_ISOLATE RESPONSE_SERVICE_FAILOVER RESPONSE_EVACUATION
      RESPONSE_PARTIAL_CONTAIN RESPONSE_FULL_RECOVERY Pos.eqb] in Hsw.
    unfold bind, ret in Hsw. rewrite call_eq in Hsw.
    injection Hop as <-. injection Hsw as <- _ Hev.
    apply app_inv_head in Hev. subst events.
    split; [reflexivity | apply wrap_s32_range]. }
  destruct Hone as [-> Hrange].
  exists result. eexists. exists lk, t0, t1, ul.
  split; [exact Hrun |]. split; [reflexivity | exact Hrange].
Qed.

Lemma single_call_types_pass_on_controller_code_witness :
  single_call_op (sample_request RESPONSE_BACKUP_ACTIVATE 0) =
    Some (OpActivateEmergencyBackups 7) /\
  initialized ready_state = true /\ lock_held ready_state = false /\
  exists rc s' lk t0 t1 ul,
    re_execute_integrated (scripted [0; 100; 42; 101; 0])
      (Some (sample_request RESPONSE_BACKUP_ACTIVATE 0)) ready_state [] =
      Some (rc, s',
            [] ++ [(OpMutexLock, lk); (OpTime, t0);
                   (OpActivateEmergencyBackups 7, rc);
                   (OpTime, t1); (OpMutexUnlock, ul)]) /\
    overall_result (re_get_last_report s') = rc /\
    - 2 ^ 31 <= rc < 2 ^ 31.
Proof.
  split; [reflexivity |]. split; [reflexivity |]. split; [reflexivity |].
  apply (single_call_types_pass_on_controller_code (scripted [0; 100; 42; 101; 0])
           (sample_request RESPONSE_BACKUP_ACTIVATE 0)
           (OpActivateEmergencyBackups 7) ready_state []); reflexivity.
Defined.

(** ** The controllers of the source *)

Lemma dispatch_switch_stub_result
    (ext : Oracle) (r : integrated_response_t) (w : World) :
  uses_only_controllers (type r) = true ->
  fst (fst (dispatch_switch (stub_oracle ext) r w)) = 0.
Proof.
  intros H. unfold uses_only_controllers in H. cbn [existsb] in H.
  rewrite !orb_true_iff in H. unfold dispatch_switch.
  destruct H as [H | [H | [H | [H | [H | H]]]]];
    try discriminate H; apply Z.eqb_eq in H; rewrite H; reflexivity.
Qed.

(** With the controller bodies the source has, which all return 0, a
    dispatch of Lockdown, Evacuation, BackupActivate, PartialContain or
    FullRecovery cannot fail: it returns 0 and publishes [overall_result = 0],
    whatever the libc and pthread calls return. *)
Theorem source_controllers_never_fail
    (ext : Oracle) (r : integrated_response_t)
    (s : subsystem_state_t) (w : World) :
  uses_only_controllers (type r) = true ->
  initialized s = true -> lock_held s = false ->
  exists s' w',
    re_execute_integrated (stub_oracle ext) (Some r) s w = Some (0, s', w') /\
    overall_result (re_get_last_report s') = 0.
Proof.
  intros Htype Hinit Hlock.
  destruct (dispatch_run_shape (stub_oracle ext) r s w Hinit Hlock)
    as (lk & t0 & result & summary & events & t1 & ul & Hrun & Hsw & _).
  pose proof (dispatch_switch_stub_result ext r
                (w ++ [(OpMutexLock, lk); (OpTime, t0)]) Htype) as Hzero.
  rewrite Hsw in Hzero. cbn [fst] in Hzero. subst result.
  do 2 eexists. split; [exact Hrun | reflexivity].
Qed.

Lemma source_controllers_never_fail_witness :
  uses_only_controllers (type lockdown_all_zones) = true /\
  initialized ready_state = true /\ lock_held ready_state = false /\
  exists s' w',
    re_execute_integrated (stub_oracle (scripted [3; 4; 5; 6; 7; 8; 9; 10]))
      (Some lockdown_all_zones) ready_state [] = Some (0, s', w') /\
    overall_result (re_get_last_report s') = 0.
Proof.
  split; [reflexivity |]. split; [reflexivity |]. split; [reflexivity |].
  apply (source_controllers_never_fail (scripted [3; 4; 5; 6; 7; 8; 9; 10])
           lockdown_all_zones ready_state []); reflexivity.
Defined.

(** With the controller bodies of the source, an initialization from an
    uninitialized state can only fail at [pthread_mutex_init]: it returns 0
    when the mutex call returns 0 and -1 otherwise, and after a successful run
    the system reports ready. *)
Theorem source_init_fails_only_on_mutex
    (ext : Oracle) (s : subsystem_state_t) (w : World) :
  initialized s = false ->
  exists m rc s' w',
    re_init_integrated (stub_oracle ext) s w = (rc, s', w') /\
    nth_error (new_events w w') 0 = Some (OpMutexInit, m) /\
    (rc = 0 <-> m = 0) /\
    (rc = 0 \/ rc = -1) /\
    (rc = 0 ->
     fst (re_subsystem_ready (stub_oracle ext) s' w') = true /\
     ops_of (new_events w w') =
       [OpMutexInit; OpCheckHardwareReadiness; OpInitNetworkSubsystem;
        OpInitAccessControl]).
Proof.
  intros Hinit. unfold re_init_integrated, bind, ret. rewrite Hinit.
  run_call m Em. destruct (Z.eqb_spec m 0) as [Hm | Hm]; cbn [negb].
  - rewrite !call_eq. cbv beta iota.
    cbn [stub_oracle op_type coerce].
    change (wrap_s32 0) with 0. change (1 =? 0) with false.
    change (0 =? 0) with true. cbv beta iota. cbn [negb]. cbv beta iota.
    exists m. do 3 eexists. split; [reflexivity |].
    rewrite <- !app_assoc, new_events_app.
    split; [reflexivity |]. split; [tauto |]. split; [left; reflexivity |].
    intros _. split; reflexivity.
  - exists m, (-1), s, (w ++ [(OpMutexInit, m)]). split; [reflexivity |].
    rewrite new_events_app. split; [reflexivity |].
    split; [split; [intros H; discriminate H | intros H; contradiction] |].
    split; [right; reflexivity | intros H; discriminate H].
Qed.

Lemma source_init_fails_only_on_mutex_witness :
  initialized initial_state = false /\
  exists m rc s' w',
    re_init_integrated (stub_oracle (calm 1700000000)) initial_state [] =
      (rc, s', w') /\
    nth_error (new_events [] w') 0 = Some (OpMutexInit, m) /\
    (rc = 0 <-> m = 0) /\
    (rc = 0 \/ rc = -1) /\
    (rc = 0 ->
     fst (re_subsystem_ready (stub_oracle (calm 1700000000)) s' w') = true /\
     ops_of (new_events [] w') =
       [OpMutexInit; OpCheckHardwareReadiness; OpInitNetworkSubsystem;
        OpInitAccessControl]).
Proof.
  split; [reflexivity |].
  apply (source_init_fails_only_on_mutex (stub_oracle (calm 1700000000))
           initial_state []).
  reflexivity.
Defined.

(** ** Fixed strings and their buffers *)

Lemma zone_rule_lines_short :
  forallb (fun i => (String.length (render (CmdDropZone i)) <? 256)%nat)
    (zrange 0 32) = true.
Proof. vm_compute. reflexivity. Qed.

(** The texts the code formats or copies fit the arrays they go to, with
    room for the terminating NUL: every zone rule line in [command[256]],
    every service line in [stop_cmd[128]] and [start_cmd[128]], the summary
    of every request type in [status_summary[512]], and the trigger text of
    the emergency request in [trigger_event[64]]. *)
Theorem fixed_strings_fit_their_buffers :
  Forall (fun i => (String.length (render (CmdDropZone i)) < 256)%nat)
    (zrange 0 32) /\
  Forall
    (fun name =>
       (String.length (render (CmdStopService name)) < 128)%nat /\
       (String.length (render (CmdStartBackup name)) < 128)%nat)
    critical_services /\
  (forall oracle r w,
     (String.length (snd (fst (dispatch_switch oracle r w))) < 512)%nat) /\
  (forall now, (String.length (trigger_event (emergency_request now)) < 64)%nat).
Proof.
  split; [| split; [| split]].
  - apply Forall_forall. intros i Hi.
    pose proof zone_rule_lines_short as H.
    rewrite forallb_forall in H. apply Nat.ltb_lt. apply H. exact Hi.
  - unfold critical_services.
    repeat constructor; apply Nat.ltb_lt; vm_compute; reflexivity.
  - intros oracle r w. unfold dispatch_switch.
    destruct (type r =? RESPONSE_LOCKDOWN).
    { unfold bind, ret. destruct (execute_lockdown_sequence oracle r w).
      apply Nat.ltb_lt. vm_compute. reflexivity. }
    destruct (type r =? RESPONSE_NETWORK_ISOLATE).
    { unfold bind, ret. destruct (execute_network_isolation oracle r w).
      apply Nat.ltb_lt. vm_compute. reflexivity. }
    destruct (type r =? RESPONSE_SERVICE_FAILOVER).
    { unfold bind, ret. destruct (execute_service_failover oracle r w).
      apply Nat.ltb_lt. vm_compute. reflexivity. }
    destruct (type r =? RESPONSE_EVACUATION).
    { unfold bind, ret. destruct (execute_evacuation_protocol oracle r w).
      apply Nat.ltb_lt. vm_compute. reflexivity. }
    destruct (type r =? RESPONSE_BACKUP_ACTIVATE);
      [apply Nat.ltb_lt; vm_compute; reflexivity |].
    destruct (type r =? RESPONSE_PARTIAL_CONTAIN);
      [apply Nat.ltb_lt; vm_compute; reflexivity |].
    destruct (type r =? RESPONSE_FULL_RECOVERY);
      apply Nat.ltb_lt; vm_compute; reflexivity.
  - intros now. apply Nat.ltb_lt. vm_compute. reflexivity.
Qed.
